(** * analysis/data_structures.py: multi-parameter utility analysis options

    A shallow embedding of [MultiParameterConfiguration],
    [UtilityAnalysisOptions], [get_aggregate_params] and
    [get_partition_selection_strategy], first with Python values taken by
    value, then with the configuration objects held in a store of
    references, so that [copy.copy] and attribute assignment are visible. *)

From Stdlib Require Import ZArith Bool Floats Lia String.
From stdpp Require Import base option list gmap.

Local Open Scope Z_scope.

(** ** Python exceptions and results *)

(** The three exception classes the module can raise.  The message of a
    [ValueError] plays no role in what follows and is kept as a comment at
    each [raise]. *)
Inductive exception : Set :=
| ValueError
| IndexError
| TypeError.

Inductive result (A : Type) : Type :=
| Ok (a : A)
| Raise (e : exception).

Arguments Ok {A} a.
Arguments Raise {A} e.

Definition bind {A B : Type} (r : result A) (k : A -> result B) : result B :=
  match r with
  | Ok a => k a
  | Raise e => Raise e
  end.

Declare Scope py_scope.
Delimit Scope py_scope with py.
Notation "x <- r ;; k" := (bind r (fun x => k))
  (at level 100, r at next level, right associativity) : py_scope.
Local Open Scope py_scope.

Fixpoint mapM {A B : Type} (f : A -> result B) (l : list A) : result (list B) :=
  match l with
  | [] => Ok []
  | x :: l' => y <- f x ;; ys <- mapM f l' ;; Ok (y :: ys)
  end.

(** ** Python sequences *)

(** An attribute annotated [Sequence[_] = None] holds [None] or a list. *)
Definition truthy {A : Type} (v : option (list A)) : bool :=
  match v with
  | Some (_ :: _) => true
  | _ => false
  end.

Definition is_None {A : Type} (v : option A) : bool :=
  match v with
  | None => true
  | Some _ => false
  end.

(** [l[i]] on a list: indices [-len(l) <= i < len(l)] are in range, a
    negative one counting from the end. *)
Definition getitem {A : Type} (l : list A) (i : Z) : result A :=
  let n := Z.of_nat (length l) in
  let j := if i <? 0 then i + n else i in
  if (j <? 0) || (n <=? j) then Raise IndexError
  else match l !! Z.to_nat j with
       | Some x => Ok x
       | None => Raise IndexError
       end.

(** [v[i]] on an attribute: [None] is not subscriptable. *)
Definition subscript {A : Type} (v : option (list A)) (i : Z) : result A :=
  match v with
  | Some l => getitem l i
  | None => Raise TypeError
  end.

(** Iterating over an attribute: [None] is not iterable. *)
Definition iter {A : Type} (v : option (list A)) : result (list A) :=
  match v with
  | Some l => Ok l
  | None => Raise TypeError
  end.

(** The built-ins [min] and [max] on a list of lengths; both raise
    [ValueError] on an empty argument. *)
Definition py_min (l : list nat) : result nat :=
  match l with
  | [] => Raise ValueError
  | x :: l' => Ok (foldr Nat.min x l')
  end.

Definition py_max (l : list nat) : result nat :=
  match l with
  | [] => Raise ValueError
  | x :: l' => Ok (foldr Nat.max x l')
  end.

(** An element of [min_sum_per_partition] or [max_sum_per_partition]:
    [Union[float, Sequence[float]]]. *)
Inductive SumBound : Set :=
| Scalar (x : float)
| Columns (xs : list float).

(** [isinstance(b, Sequence)] *)
Definition isinstance_Sequence (b : SumBound) : bool :=
  match b with
  | Columns _ => true
  | Scalar _ => false
  end.

(** [len(v)]: a float has no length. *)
Definition len (v : SumBound) : result nat :=
  match v with
  | Columns xs => Ok (length xs)
  | Scalar _ => Raise TypeError
  end.

(** [list(zip(a, b))]: a float is not iterable; the shorter argument
    decides the length. *)
Definition zip (a b : SumBound) : result (list (SumBound * SumBound)) :=
  match a, b with
  | Columns xs, Columns ys => Ok (combine (Scalar <$> xs) (Scalar <$> ys))
  | _, _ => Raise TypeError
  end.

(** ** pipeline_dp.AggregateParams *)

Module pipeline_dp.
Section AggregateParams.
Context {NoiseKind PartitionSelectionStrategy Rest : Type}.

(** Modelled from the spec: the class [pipeline_dp.AggregateParams] is not
    part of this file; it is a record of the six attributes that
    [MultiParameterConfiguration] reads or overrides, the two sum bounds
    being each a scalar or a sequence of per-column scalars, and of its
    remaining attributes, [rest], which this module never touches.  The
    enumerations [NoiseKind] and [PartitionSelectionStrategy] are only
    stored and copied and are left as type parameters. *)
Record AggregateParams : Type := {
  max_partitions_contributed : Z;
  max_contributions_per_partition : Z;
  min_sum_per_partition : SumBound;
  max_sum_per_partition : SumBound;
  noise_kind : NoiseKind;
  partition_selection_strategy : PartitionSelectionStrategy;
  rest : Rest
}.

(** Attribute assignment, [params.<attribute> = v]. *)
Definition set_max_partitions_contributed (v : Z) (p : AggregateParams) :=
  {| max_partitions_contributed := v;
     max_contributions_per_partition := max_contributions_per_partition p;
     min_sum_per_partition := min_sum_per_partition p;
     max_sum_per_partition := max_sum_per_partition p;
     noise_kind := noise_kind p;
     partition_selection_strategy := partition_selection_strategy p;
     rest := rest p |}.

Definition set_max_contributions_per_partition (v : Z) (p : AggregateParams) :=
  {| max_partitions_contributed := max_partitions_contributed p;
     max_contributions_per_partition := v;
     min_sum_per_partition := min_sum_per_partition p;
     max_sum_per_partition := max_sum_per_partition p;
     noise_kind := noise_kind p;
     partition_selection_strategy := partition_selection_strategy p;
     rest := rest p |}.

Definition set_noise_kind (v : NoiseKind) (p : AggregateParams) :=
  {| max_partitions_contributed := max_partitions_contributed p;
     max_contributions_per_partition := max_contributions_per_partition p;
     min_sum_per_partition := min_sum_per_partition p;
     max_sum_per_partition := max_sum_per_partition p;
     noise_kind := v;
     partition_selection_strategy := partition_selection_strategy p;
     rest := rest p |}.

Definition set_partition_selection_strategy
    (v : PartitionSelectionStrategy) (p : AggregateParams) :=
  {| max_partitions_contributed := max_partitions_contributed p;
     max_contributions_per_partition := max_contributions_per_partition p;
     min_sum_per_partition := min_sum_per_partition p;
     max_sum_per_partition := max_sum_per_partition p;
     noise_kind := noise_kind p;
     partition_selection_strategy := v;
     rest := rest p |}.
End AggregateParams.
Arguments AggregateParams : clear implicits.
End pipeline_dp.

(** ** MultiParameterConfiguration *)

Module MultiParameterConfiguration.
Section Class.
Context {NoiseKind PartitionSelectionStrategy Rest : Type}.
Abbreviation AggregateParams :=
  (pipeline_dp.AggregateParams NoiseKind PartitionSelectionStrategy Rest).

(** The six dataclass fields, as given to the constructor. *)
Record fields : Type := {
  max_partitions_contributed : option (list Z);
  max_contributions_per_partition : option (list Z);
  min_sum_per_partition : option (list SumBound);
  max_sum_per_partition : option (list SumBound);
  noise_kind : option (list NoiseKind);
  partition_selection_strategy : option (list PartitionSelectionStrategy)
}.

(** [len(value)] for one attribute of [dataclasses.asdict(self)], kept
    only [if value]. *)
Definition attribute_size {A : Type} (value : option (list A)) : list nat :=
  match value with
  | Some (x :: l) => [length (x :: l)]
  | _ => []
  end.

Definition all_elements_are_lists (a : list SumBound) : bool :=
  forallb isinstance_Sequence a.

Definition common_value_len (a : list SumBound) : result (option nat) :=
  sizes <- mapM len a ;;
  lo <- py_min sizes ;;
  hi <- py_max sizes ;;
  Ok (if Nat.eqb lo hi then Some lo else None).

Definition option_nat_eqb (a b : option nat) : bool :=
  match a, b with
  | Some x, Some y => Nat.eqb x y
  | None, None => true
  | _, _ => false
  end.

(** [__post_init__]: returns the value it stores in [self._size]. *)
Definition __post_init__ (self : fields) : result nat :=
  let sizes :=
    attribute_size (max_partitions_contributed self) ++
    attribute_size (max_contributions_per_partition self) ++
    attribute_size (min_sum_per_partition self) ++
    attribute_size (max_sum_per_partition self) ++
    attribute_size (noise_kind self) ++
    attribute_size (partition_selection_strategy self) in
  match sizes with
  | [] =>
      (* "MultiParameterConfiguration must have at least 1 non-empty
         attribute." *)
      Raise ValueError
  | _ :: _ =>
      lo <- py_min sizes ;;
      hi <- py_max sizes ;;
      if negb (Nat.eqb lo hi) then
        (* "All set attributes in MultiParameterConfiguration must have
           the same length." *)
        Raise ValueError
      else
        _size <- getitem sizes 0 ;;
        if negb (eqb (is_None (min_sum_per_partition self))
                     (is_None (max_sum_per_partition self))) then
          (* "min_sum_per_partition and max_sum_per_partition must be
             both set or both None." *)
          Raise ValueError
        else if truthy (min_sum_per_partition self) then
          mins <- iter (min_sum_per_partition self) ;;
          maxs <- iter (max_sum_per_partition self) ;;
          if all_elements_are_lists mins && all_elements_are_lists maxs then
            size1 <- common_value_len mins ;;
            size2 <- common_value_len maxs ;;
            if is_None size1 || is_None size2
               || negb (option_nat_eqb size1 size2) then
              (* "If elements of min_sum_per_partition and
                 max_sum_per_partition are sequences, then they must
                 have the same length." *)
              Raise ValueError
            else Ok _size
          else Ok _size
        else Ok _size
  end.

(** A constructed object: the fields and the private [_size]. *)
Record MultiParameterConfiguration : Type := {
  attributes :> fields;
  _size : nat
}.

(** The generated [__init__]: store the fields, run [__post_init__]. *)
Definition __init__ (self : fields) : result MultiParameterConfiguration :=
  n <- __post_init__ self ;;
  Ok {| attributes := self; _size := n |}.

Definition size (self : MultiParameterConfiguration) : nat := _size self.

(** [get_aggregate_params(self, params, index)].  [copy.copy(params)] is a
    shallow copy; on values it is the identity. *)
Definition get_aggregate_params (self : MultiParameterConfiguration)
    (params : AggregateParams) (index : Z)
    : result (AggregateParams * list (SumBound * SumBound)) :=
  let params := params in
  params <-
    (if truthy (max_partitions_contributed self) then
       v <- subscript (max_partitions_contributed self) index ;;
       Ok (pipeline_dp.set_max_partitions_contributed v params)
     else Ok params) ;;
  params <-
    (if truthy (max_contributions_per_partition self) then
       v <- subscript (max_contributions_per_partition self) index ;;
       Ok (pipeline_dp.set_max_contributions_per_partition v params)
     else Ok params) ;;
  params <-
    (if truthy (noise_kind self) then
       v <- subscript (noise_kind self) index ;;
       Ok (pipeline_dp.set_noise_kind v params)
     else Ok params) ;;
  params <-
    (if truthy (partition_selection_strategy self) then
       v <- subscript (partition_selection_strategy self) index ;;
       Ok (pipeline_dp.set_partition_selection_strategy v params)
     else Ok params) ;;
  if truthy (min_sum_per_partition self) then
    min_sum <- subscript (min_sum_per_partition self) index ;;
    max_sum <- subscript (max_sum_per_partition self) index ;;
    if isinstance_Sequence min_sum then
      min_max_sum <- zip min_sum max_sum ;;
      Ok (params, min_max_sum)
    else Ok (params, [(min_sum, max_sum)])
  else
    Ok (params, [(pipeline_dp.min_sum_per_partition params,
                  pipeline_dp.max_sum_per_partition params)]).
End Class.
Arguments fields : clear implicits.
Arguments MultiParameterConfiguration : clear implicits.
End MultiParameterConfiguration.
Import (coercions) MultiParameterConfiguration.

(** ** UtilityAnalysisOptions *)

Module UtilityAnalysisOptions.
Section Class.
(** The two attributes that hold objects are typed by what stands for an
    object: its value, or a reference into a store. *)
Context {P M : Type}.

(** [input_validators.validate_epsilon_delta(epsilon, delta, obj_name)] is
    defined outside this file: it returns, or raises. *)
Variable validate_epsilon_delta : float -> float -> string -> result unit.

Record UtilityAnalysisOptions : Type := {
  epsilon : float;
  delta : float;
  aggregate_params : P;
  multi_param_configuration : option M;
  partitions_sampling_prob : float;
  pre_aggregated_data : bool
}.

Definition __post_init__ (self : UtilityAnalysisOptions) : result unit :=
  _ <- validate_epsilon_delta (epsilon self) (delta self)
         "UtilityAnalysisOptions" ;;
  if ((partitions_sampling_prob self <=? 0)%float
      || (1 <? partitions_sampling_prob self)%float) then
    (* "partitions_sampling_prob must be in the interval (0, 1], but
       {self.partitions_sampling_prob} given." *)
    Raise ValueError
  else Ok ().

Definition __init__ (self : UtilityAnalysisOptions)
    : result UtilityAnalysisOptions :=
  _ <- __post_init__ self ;;
  Ok self.
End Class.
Arguments UtilityAnalysisOptions : clear implicits.
End UtilityAnalysisOptions.

(** ** Generators *)

(** What a consumer that exhausts a generator sees: the items yielded, in
    order, and how the generator ended, [None] for a normal end and
    [Some e] for an exception raised after the last item. *)
Definition generated (A : Type) : Type := (list A * option exception)%type.

(** [for x in xs: yield body(x)] *)
Fixpoint for_yield {A B : Type} (body : A -> result B) (xs : list A)
    : generated B :=
  match xs with
  | [] => ([], None)
  | x :: xs' =>
      match body x with
      | Raise e => ([], Some e)
      | Ok y => let '(ys, r) := for_yield body xs' in (y :: ys, r)
      end
  end.

(** [range(n)] *)
Definition range (n : nat) : list Z := Z.of_nat <$> seq 0 n.

(** ** Module-level functions, on values *)

Section Functions.
Context {NoiseKind PartitionSelectionStrategy Rest : Type}.
Abbreviation AggregateParams :=
  (pipeline_dp.AggregateParams NoiseKind PartitionSelectionStrategy Rest).
Abbreviation MultiParameterConfiguration :=
  (MultiParameterConfiguration.MultiParameterConfiguration
     NoiseKind PartitionSelectionStrategy).
Abbreviation UtilityAnalysisOptions :=
  (UtilityAnalysisOptions.UtilityAnalysisOptions
     AggregateParams MultiParameterConfiguration).

(** The property [UtilityAnalysisOptions.n_configurations]. *)
Definition n_configurations (self : UtilityAnalysisOptions) : nat :=
  match UtilityAnalysisOptions.multi_param_configuration self with
  | None => 1%nat
  | Some multi_param_configuration =>
      MultiParameterConfiguration.size multi_param_configuration
  end.

Definition get_aggregate_params (options : UtilityAnalysisOptions)
    : generated (AggregateParams * list (SumBound * SumBound)) :=
  match UtilityAnalysisOptions.multi_param_configuration options with
  | None =>
      let agg_params := UtilityAnalysisOptions.aggregate_params options in
      ([(agg_params,
         [(pipeline_dp.min_sum_per_partition agg_params,
           pipeline_dp.max_sum_per_partition agg_params)])], None)
  | Some multi_param_configuration =>
      for_yield
        (fun i =>
           MultiParameterConfiguration.get_aggregate_params
             multi_param_configuration
             (UtilityAnalysisOptions.aggregate_params options) i)
        (range (MultiParameterConfiguration.size multi_param_configuration))
  end.

Definition get_partition_selection_strategy (options : UtilityAnalysisOptions)
    : list PartitionSelectionStrategy :=
  match UtilityAnalysisOptions.multi_param_configuration options with
  | Some multi_configuration =>
      match MultiParameterConfiguration.partition_selection_strategy
              multi_configuration with
      | Some strategies => strategies
      | None =>
          replicate (MultiParameterConfiguration.size multi_configuration)
            (pipeline_dp.partition_selection_strategy
               (UtilityAnalysisOptions.aggregate_params options))
      end
  | None =>
      replicate 1
        (pipeline_dp.partition_selection_strategy
           (UtilityAnalysisOptions.aggregate_params options))
  end.
End Functions.

(** ** The same functions on a store of objects

    Python passes objects by reference: [copy.copy] allocates a new object,
    an attribute assignment updates the object it is applied to, and a
    function that returns its argument returns the same object.  Here the
    configuration objects live in a store and are named by references. *)

Module Store.
Abbreviation ref := positive.

Section Monad.
Context {NoiseKind PartitionSelectionStrategy Rest : Type}.

Inductive object : Type :=
| AggregateParamsObject
    (p : pipeline_dp.AggregateParams NoiseKind PartitionSelectionStrategy Rest)
| MultiParameterConfigurationObject
    (c : MultiParameterConfiguration.MultiParameterConfiguration
           NoiseKind PartitionSelectionStrategy).

Abbreviation store := (gmap ref object).

(** A reference that no object of the store has. *)
Definition alloc (s : store) : ref :=
  map_fold (fun k _ acc => Pos.max (Pos.succ k) acc) 1%positive s.

(** A computation reads and updates the store and returns or raises.
    [None] is not a Python outcome: it says that a reference was read at
    which the store holds no object of the expected class. *)
Definition M (A : Type) : Type := store -> option (result A * store).

Definition ret {A : Type} (a : A) : M A := fun s => Some (Ok a, s).

Definition lift {A : Type} (r : result A) : M A := fun s => Some (r, s).

Definition mbind {A B : Type} (m : M A) (k : A -> M B) : M B :=
  fun s =>
    match m s with
    | None => None
    | Some (Ok a, s') => k a s'
    | Some (Raise e, s') => Some (Raise e, s')
    end.

(** Reading the object behind a reference. *)
Definition read_params (r : ref)
    : M (pipeline_dp.AggregateParams NoiseKind PartitionSelectionStrategy Rest) :=
  fun s =>
    match s !! r with
    | Some (AggregateParamsObject p) => Some (Ok p, s)
    | _ => None
    end.

Definition read_configuration (r : ref)
    : M (MultiParameterConfiguration.MultiParameterConfiguration
           NoiseKind PartitionSelectionStrategy) :=
  fun s =>
    match s !! r with
    | Some (MultiParameterConfigurationObject c) => Some (Ok c, s)
    | _ => None
    end.

(** [copy.copy(r)]: a new object with the attribute values of [r]. *)
Definition copy_copy (r : ref) : M ref :=
  fun s =>
    match s !! r with
    | Some (AggregateParamsObject p) =>
        let r' := alloc s in
        Some (Ok r', <[r' := AggregateParamsObject p]> s)
    | _ => None
    end.

(** [r.<attribute> = v], with [set] the assignment on values. *)
Definition setattr (r : ref)
    (set : pipeline_dp.AggregateParams NoiseKind PartitionSelectionStrategy Rest ->
           pipeline_dp.AggregateParams NoiseKind PartitionSelectionStrategy Rest)
    : M unit :=
  fun s =>
    match s !! r with
    | Some (AggregateParamsObject p) =>
        Some (Ok (), <[r := AggregateParamsObject (set p)]> s)
    | _ => None
    end.

(** [for x in xs: yield body(x)], run to the end from store [s]. *)
Fixpoint for_yield {A B : Type} (body : A -> M B) (xs : list A) (s : store)
    : option (generated B * store) :=
  match xs with
  | [] => Some (([], None), s)
  | x :: xs' =>
      match body x s with
      | None => None
      | Some (Raise e, s') => Some (([], Some e), s')
      | Some (Ok y, s') =>
          match for_yield body xs' s' with
          | None => None
          | Some ((ys, r), s'') => Some ((y :: ys, r), s'')
          end
      end
  end.
End Monad.
Arguments object : clear implicits.

Declare Scope store_scope.
Delimit Scope store_scope with store.
Notation "x <- m ;; k" := (mbind m (fun x => k))
  (at level 100, m at next level, right associativity) : store_scope.

Module MultiParameterConfiguration.
Section Class.
Context {NoiseKind PartitionSelectionStrategy Rest : Type}.
Local Open Scope store_scope.

(** [self.<attribute>] *)
Definition attribute {A : Type} (self : ref)
    (get : MultiParameterConfiguration.fields
             NoiseKind PartitionSelectionStrategy -> A)
    : @M NoiseKind PartitionSelectionStrategy Rest A :=
  c <- read_configuration self ;; ret (get c).

Definition get_aggregate_params (self params : ref) (index : Z)
    : @M NoiseKind PartitionSelectionStrategy Rest
         (ref * list (SumBound * SumBound)) :=
  params <- copy_copy params ;;
  t <- attribute self MultiParameterConfiguration.max_partitions_contributed ;;
  _ <- (if truthy t then
          a <- attribute self
                 MultiParameterConfiguration.max_partitions_contributed ;;
          v <- lift (subscript a index) ;;
          setattr params (pipeline_dp.set_max_partitions_contributed v)
        else ret ()) ;;
  t <- attribute self
         MultiParameterConfiguration.max_contributions_per_partition ;;
  _ <- (if truthy t then
          a <- attribute self
                 MultiParameterConfiguration.max_contributions_per_partition ;;
          v <- lift (subscript a index) ;;
          setattr params (pipeline_dp.set_max_contributions_per_partition v)
        else ret ()) ;;
  t <- attribute self MultiParameterConfiguration.noise_kind ;;
  _ <- (if truthy t then
          a <- attribute self MultiParameterConfiguration.noise_kind ;;
          v <- lift (subscript a index) ;;
          setattr params (pipeline_dp.set_noise_kind v)
        else ret ()) ;;
  t <- attribute self
         MultiParameterConfiguration.partition_selection_strategy ;;
  _ <- (if truthy t then
          a <- attribute self
                 MultiParameterConfiguration.partition_selection_strategy ;;
          v <- lift (subscript a index) ;;
          setattr params (pipeline_dp.set_partition_selection_strategy v)
        else ret ()) ;;
  t <- attribute self MultiParameterConfiguration.min_sum_per_partition ;;
  if truthy t then
    a <- attribute self MultiParameterConfiguration.min_sum_per_partition ;;
    min_sum <- lift (subscript a index) ;;
    a <- attribute self MultiParameterConfiguration.max_sum_per_partition ;;
    max_sum <- lift (subscript a index) ;;
    if isinstance_Sequence min_sum then
      min_max_sum <- lift (zip min_sum max_sum) ;;
      ret (params, min_max_sum)
    else ret (params, [(min_sum, max_sum)])
  else
    p <- read_params params ;;
    ret (params, [(pipeline_dp.min_sum_per_partition p,
                   pipeline_dp.max_sum_per_partition p)]).
End Class.
End MultiParameterConfiguration.

Section Functions.
Context {NoiseKind PartitionSelectionStrategy Rest : Type}.
Local Open Scope store_scope.
Abbreviation store :=
  (gmap ref (object NoiseKind PartitionSelectionStrategy Rest)).
Abbreviation UtilityAnalysisOptions :=
  (UtilityAnalysisOptions.UtilityAnalysisOptions ref ref).

Definition n_configurations (self : UtilityAnalysisOptions)
    : @M NoiseKind PartitionSelectionStrategy Rest nat :=
  match UtilityAnalysisOptions.multi_param_configuration self with
  | None => ret 1%nat
  | Some multi_param_configuration =>
      c <- read_configuration multi_param_configuration ;;
      ret (MultiParameterConfiguration.size c)
  end.

Definition get_aggregate_params (options : UtilityAnalysisOptions)
    (s : store)
    : option (generated (ref * list (SumBound * SumBound)) * store) :=
  match UtilityAnalysisOptions.multi_param_configuration options with
  | None =>
      let agg_params := UtilityAnalysisOptions.aggregate_params options in
      match read_params agg_params s with
      | Some (Ok p, s') =>
          Some (([(agg_params,
                   [(pipeline_dp.min_sum_per_partition p,
                     pipeline_dp.max_sum_per_partition p)])], None), s')
      | _ => None
      end
  | Some multi_param_configuration =>
      match read_configuration multi_param_configuration s with
      | Some (Ok c, s') =>
          for_yield
            (fun i =>
               MultiParameterConfiguration.get_aggregate_params
                 multi_param_configuration
                 (UtilityAnalysisOptions.aggregate_params options) i)
            (range (MultiParameterConfiguration.size c)) s'
      | _ => None
      end
  end.

Definition get_partition_selection_strategy (options : UtilityAnalysisOptions)
    : @M NoiseKind PartitionSelectionStrategy Rest
         (list PartitionSelectionStrategy) :=
  match UtilityAnalysisOptions.multi_param_configuration options with
  | Some multi_configuration =>
      c <- read_configuration multi_configuration ;;
      match MultiParameterConfiguration.partition_selection_strategy c with
      | Some strategies => ret strategies
      | None =>
          c <- read_configuration multi_configuration ;;
          p <- read_params (UtilityAnalysisOptions.aggregate_params options) ;;
          ret (replicate (MultiParameterConfiguration.size c)
                 (pipeline_dp.partition_selection_strategy p))
      end
  | None =>
      p <- read_params (UtilityAnalysisOptions.aggregate_params options) ;;
      ret (replicate 1 (pipeline_dp.partition_selection_strategy p))
  end.
End Functions.
End Store.

(** ** Vocabulary of the statements *)

(** The indices Python accepts on a sequence of length [n]. *)
Definition in_range (n : nat) (i : Z) : Prop :=
  - Z.of_nat n <= i < Z.of_nat n.

Definition uniform (c : nat) (l : list nat) : Prop := Forall (eq c) l.

Definition all_equal (l : list nat) : bool :=
  match l with
  | [] => true
  | x :: l' => forallb (Nat.eqb x) l'
  end.

(** Some two members of [l] differ. *)
Definition two_differ (l : list nat) : bool :=
  existsb (fun a => existsb (fun b => negb (Nat.eqb a b)) l) l.

(** The length of a sequence that is supplied and not empty. *)
Definition nonempty_length {A : Type} (v : option (list A)) : option nat :=
  match v with
  | Some (x :: l) => Some (length (x :: l))
  | _ => None
  end.

(** The column counts of the rows of a min-sum or max-sum sequence. *)
Definition column_counts (a : list SumBound) : list nat :=
  omap (fun b => match b with
                 | Columns xs => Some (length xs)
                 | Scalar _ => None
                 end) a.

Section Claims.
Context {NoiseKind PartitionSelectionStrategy : Type}.
Implicit Types (fs : MultiParameterConfiguration.fields
                       NoiseKind PartitionSelectionStrategy).

Definition nonempty_lengths fs : list nat :=
  omap id
    [nonempty_length (MultiParameterConfiguration.max_partitions_contributed fs);
     nonempty_length
       (MultiParameterConfiguration.max_contributions_per_partition fs);
     nonempty_length (MultiParameterConfiguration.min_sum_per_partition fs);
     nonempty_length (MultiParameterConfiguration.max_sum_per_partition fs);
     nonempty_length (MultiParameterConfiguration.noise_kind fs);
     nonempty_length
       (MultiParameterConfiguration.partition_selection_strategy fs)].

(** The specification says of a sequence that it is set, or supplied.
    For an empty list given to the constructor this can be read in two
    ways: the sequence is set because it is not [None], or it is not set
    because it is empty. *)
Inductive reading : Set :=
| NotNone
| NonEmpty.

Definition is_set (r : reading) {A : Type} (v : option (list A)) : bool :=
  match r with
  | NotNone => negb (is_None v)
  | NonEmpty => truthy v
  end.

Definition rows fs : list SumBound :=
  default [] (MultiParameterConfiguration.min_sum_per_partition fs) ++
  default [] (MultiParameterConfiguration.max_sum_per_partition fs).

(** The multi-column case: min-sum and max-sum are both set and every
    element of both is a sequence. *)
Definition multi_column (r : reading) fs : bool :=
  is_set r (MultiParameterConfiguration.min_sum_per_partition fs)
  && is_set r (MultiParameterConfiguration.max_sum_per_partition fs)
  && forallb isinstance_Sequence (rows fs).

(** The four reasons for which the specification lets the construction of
    a ParameterSet fail: no non-empty sequence is supplied; two non-empty
    sequences differ in length; exactly one of min-sum and max-sum is set;
    in the multi-column case, two rows, of min-sum or of max-sum, differ in
    column count. *)
Definition claimed_invalid (r : reading) fs : bool :=
  match nonempty_lengths fs with [] => true | _ :: _ => false end
  || two_differ (nonempty_lengths fs)
  || xorb (is_set r (MultiParameterConfiguration.min_sum_per_partition fs))
          (is_set r (MultiParameterConfiguration.max_sum_per_partition fs))
  || (multi_column r fs && two_differ (column_counts (rows fs))).

(** Each of min-sum and max-sum is absent or a non-empty sequence. *)
Definition sum_bounds_absent_or_nonempty fs : Prop :=
  MultiParameterConfiguration.min_sum_per_partition fs <> Some [] /\
  MultiParameterConfiguration.max_sum_per_partition fs <> Some [].
(** Min-sum and max-sum can be paired at every index: when min-sum is
    supplied and not empty, max-sum is a sequence of the same length that
    has a sequence wherever min-sum has one. *)
Definition shapes_agree fs : Prop :=
  match MultiParameterConfiguration.min_sum_per_partition fs with
  | Some (m :: mins) =>
      exists maxs,
        MultiParameterConfiguration.max_sum_per_partition fs = Some maxs /\
        Forall2
          (fun a b =>
             isinstance_Sequence a = true -> isinstance_Sequence b = true)
          (m :: mins) maxs
  | _ => True
  end.
End Claims.

Section StoreVocabulary.
Context {NoiseKind PartitionSelectionStrategy Rest : Type}.

(** The configuration a reference stands for in a store. *)
Definition configuration_at
    (s : gmap Store.ref (Store.object NoiseKind PartitionSelectionStrategy Rest))
    (r : Store.ref)
    : option (pipeline_dp.AggregateParams
                NoiseKind PartitionSelectionStrategy Rest) :=
  match s !! r with
  | Some (Store.AggregateParamsObject p) => Some p
  | _ => None
  end.

(** The yielded tuples, each reference replaced by the value of its
    object in store [s]. *)
Definition values_in {B : Type}
    (s : gmap Store.ref (Store.object NoiseKind PartitionSelectionStrategy Rest))
    (items : list (Store.ref * B))
    : list (option (pipeline_dp.AggregateParams
                      NoiseKind PartitionSelectionStrategy Rest) * B) :=
  (fun item => (configuration_at s item.1, item.2)) <$> items.

(** The references of the options name, in store [s], a baseline with
    value [p] and, when there is one, a ParameterSet with value [c]. *)
Definition options_in
    (s : gmap Store.ref (Store.object NoiseKind PartitionSelectionStrategy Rest))
    (options : UtilityAnalysisOptions.UtilityAnalysisOptions Store.ref Store.ref)
    (p : pipeline_dp.AggregateParams NoiseKind PartitionSelectionStrategy Rest)
    (c : option (MultiParameterConfiguration.MultiParameterConfiguration
                   NoiseKind PartitionSelectionStrategy))
    : Prop :=
  s !! UtilityAnalysisOptions.aggregate_params options
    = Some (Store.AggregateParamsObject p) /\
  match UtilityAnalysisOptions.multi_param_configuration options, c with
  | Some m, Some c => s !! m = Some (Store.MultiParameterConfigurationObject c)
  | None, None => True
  | _, _ => False
  end.

(** The options on values that options on references stand for. *)
Definition options_value {P M P' M' : Type}
    (options : UtilityAnalysisOptions.UtilityAnalysisOptions P M)
    (p : P') (c : option M')
    : UtilityAnalysisOptions.UtilityAnalysisOptions P' M' :=
  {| UtilityAnalysisOptions.epsilon := UtilityAnalysisOptions.epsilon options;
     UtilityAnalysisOptions.delta := UtilityAnalysisOptions.delta options;
     UtilityAnalysisOptions.aggregate_params := p;
     UtilityAnalysisOptions.multi_param_configuration := c;
     UtilityAnalysisOptions.partitions_sampling_prob :=
       UtilityAnalysisOptions.partitions_sampling_prob options;
     UtilityAnalysisOptions.pre_aggregated_data :=
       UtilityAnalysisOptions.pre_aggregated_data options |}.
End StoreVocabulary.

(** ** The examples of the class documentation *)

Section Examples.
Context {NoiseKind PartitionSelectionStrategy : Type}.

(** [MultiParameterConfiguration(max_partitions_contributed=[1, 2],
    max_contributions_per_partition=[10, 11])] *)
Definition example_A
    : MultiParameterConfiguration.fields NoiseKind PartitionSelectionStrategy :=
  {| MultiParameterConfiguration.max_partitions_contributed := Some [1; 2];
     MultiParameterConfiguration.max_contributions_per_partition :=
       Some [10; 11];
     MultiParameterConfiguration.min_sum_per_partition := None;
     MultiParameterConfiguration.max_sum_per_partition := None;
     MultiParameterConfiguration.noise_kind := None;
     MultiParameterConfiguration.partition_selection_strategy := None |}.

(** [MultiParameterConfiguration(min_sum_per_partition=[[1, 2], [3, 4]],
    max_sum_per_partition=[[5, 6], [7, 8]])] *)
Definition example_B
    : MultiParameterConfiguration.fields NoiseKind PartitionSelectionStrategy :=
  {| MultiParameterConfiguration.max_partitions_contributed := None;
     MultiParameterConfiguration.max_contributions_per_partition := None;
     MultiParameterConfiguration.min_sum_per_partition :=
       Some [Columns [1; 2]%float; Columns [3; 4]%float];
     MultiParameterConfiguration.max_sum_per_partition :=
       Some [Columns [5; 6]%float; Columns [7; 8]%float];
     MultiParameterConfiguration.noise_kind := None;
     MultiParameterConfiguration.partition_selection_strategy := None |}.
(** [MultiParameterConfiguration(min_sum_per_partition=[[1, 2]],
    max_sum_per_partition=[])] *)
Definition example_rows_without_max
    : MultiParameterConfiguration.fields NoiseKind PartitionSelectionStrategy :=
  {| MultiParameterConfiguration.max_partitions_contributed := None;
     MultiParameterConfiguration.max_contributions_per_partition := None;
     MultiParameterConfiguration.min_sum_per_partition :=
       Some [Columns [1; 2]%float];
     MultiParameterConfiguration.max_sum_per_partition := Some [];
     MultiParameterConfiguration.noise_kind := None;
     MultiParameterConfiguration.partition_selection_strategy := None |}.

(** [MultiParameterConfiguration(min_sum_per_partition=[1],
    max_sum_per_partition=[])] *)
Definition example_scalar_without_max
    : MultiParameterConfiguration.fields NoiseKind PartitionSelectionStrategy :=
  {| MultiParameterConfiguration.max_partitions_contributed := None;
     MultiParameterConfiguration.max_contributions_per_partition := None;
     MultiParameterConfiguration.min_sum_per_partition := Some [Scalar 1];
     MultiParameterConfiguration.max_sum_per_partition := Some [];
     MultiParameterConfiguration.noise_kind := None;
     MultiParameterConfiguration.partition_selection_strategy := None |}.

(** [MultiParameterConfiguration(max_partitions_contributed=[1, 2],
    partition_selection_strategy=[])] *)
Definition example_no_strategies
    : MultiParameterConfiguration.fields NoiseKind PartitionSelectionStrategy :=
  {| MultiParameterConfiguration.max_partitions_contributed := Some [1; 2];
     MultiParameterConfiguration.max_contributions_per_partition := None;
     MultiParameterConfiguration.min_sum_per_partition := None;
     MultiParameterConfiguration.max_sum_per_partition := None;
     MultiParameterConfiguration.noise_kind := None;
     MultiParameterConfiguration.partition_selection_strategy := Some [] |}.
(** [MultiParameterConfiguration(min_sum_per_partition=[1, 2],
    max_sum_per_partition=[5, 6])] *)
Definition example_scalars
    : MultiParameterConfiguration.fields NoiseKind PartitionSelectionStrategy :=
  {| MultiParameterConfiguration.max_partitions_contributed := None;
     MultiParameterConfiguration.max_contributions_per_partition := None;
     MultiParameterConfiguration.min_sum_per_partition :=
       Some [Scalar 1; Scalar 2];
     MultiParameterConfiguration.max_sum_per_partition :=
       Some [Scalar 5; Scalar 6];
     MultiParameterConfiguration.noise_kind := None;
     MultiParameterConfiguration.partition_selection_strategy := None |}.

(** [MultiParameterConfiguration(min_sum_per_partition=[[1, 2]],
    max_sum_per_partition=[5])] *)
Definition example_rows_against_scalars
    : MultiParameterConfiguration.fields NoiseKind PartitionSelectionStrategy :=
  {| MultiParameterConfiguration.max_partitions_contributed := None;
     MultiParameterConfiguration.max_contributions_per_partition := None;
     MultiParameterConfiguration.min_sum_per_partition :=
       Some [Columns [1; 2]%float];
     MultiParameterConfiguration.max_sum_per_partition := Some [Scalar 5];
     MultiParameterConfiguration.noise_kind := None;
     MultiParameterConfiguration.partition_selection_strategy := None |}.
End Examples.

(** A baseline and options to run the functions on; the enumerations and
    the remaining attributes are immaterial and taken to be [unit]. *)
Definition example_baseline : pipeline_dp.AggregateParams unit unit unit :=
  {| pipeline_dp.max_partitions_contributed := 3;
     pipeline_dp.max_contributions_per_partition := 4;
     pipeline_dp.min_sum_per_partition := Scalar 0;
     pipeline_dp.max_sum_per_partition := Scalar 1;
     pipeline_dp.noise_kind := ();
     pipeline_dp.partition_selection_strategy := ();
     pipeline_dp.rest := () |}.

Definition example_options {P M : Type} (aggregate_params : P)
    (multi_param_configuration : option M)
    : UtilityAnalysisOptions.UtilityAnalysisOptions P M :=
  {| UtilityAnalysisOptions.epsilon := 1;
     UtilityAnalysisOptions.delta := 0;
     UtilityAnalysisOptions.aggregate_params := aggregate_params;
     UtilityAnalysisOptions.multi_param_configuration :=
       multi_param_configuration;
     UtilityAnalysisOptions.partitions_sampling_prob := 0.5;
     UtilityAnalysisOptions.pre_aggregated_data := false |}.

(** The object built from [example_A], a store that holds the baseline at
    reference 1 and that object at reference 2, and a store with the
    baseline only. *)
Definition example_A_object
    : MultiParameterConfiguration.MultiParameterConfiguration unit unit :=
  {| MultiParameterConfiguration.attributes := example_A;
     MultiParameterConfiguration._size := 2 |}.

Definition example_store : gmap Store.ref (Store.object unit unit unit) :=
  {[ 1%positive := Store.AggregateParamsObject example_baseline;
     2%positive := Store.MultiParameterConfigurationObject example_A_object ]}.

Definition example_baseline_store
    : gmap Store.ref (Store.object unit unit unit) :=
  {[ 1%positive := Store.AggregateParamsObject example_baseline ]}.

(** A validator that accepts every epsilon and delta. *)
Definition example_validator (epsilon delta : float) (obj_name : string)
    : result unit :=
  Ok ().

(** * Properties *)

Section Properties.
Context {NoiseKind PartitionSelectionStrategy Rest : Type}.
Abbreviation AggregateParams :=
  (pipeline_dp.AggregateParams NoiseKind PartitionSelectionStrategy Rest).
Abbreviation MultiParameterConfiguration :=
  (MultiParameterConfiguration.MultiParameterConfiguration
     NoiseKind PartitionSelectionStrategy).
Abbreviation UtilityAnalysisOptions :=
  (UtilityAnalysisOptions.UtilityAnalysisOptions
     AggregateParams MultiParameterConfiguration).
Implicit Types (baseline params : AggregateParams).
Implicit Types (fs : MultiParameterConfiguration.fields
                       NoiseKind PartitionSelectionStrategy).
Implicit Types (ps : MultiParameterConfiguration).

(** ** Sequences *)

Lemma getitem_lookup {A : Type} (l : list A) (n : nat) (x : A) :
  l !! n = Some x -> getitem l (Z.of_nat n) = Ok x.
Proof.
  intros H. unfold getitem.
  pose proof (lookup_lt_Some _ _ _ H) as Hlt.
  destruct (Z.ltb_spec (Z.of_nat n) 0) as [?|_]; [lia|].
  destruct (Z.ltb_spec (Z.of_nat n) 0) as [?|_]; [lia|].
  destruct (Z.leb_spec (Z.of_nat (length l)) (Z.of_nat n)) as [?|_]; [lia|].
  simpl. rewrite Nat2Z.id, H. reflexivity.
Qed.

(** Indexing returns an element for an index in range and raises
    [IndexError] for any other. *)
Lemma getitem_cases {A : Type} (l : list A) (i : Z) :
  (in_range (length l) i /\ exists x, getitem l i = Ok x) \/
  (~ in_range (length l) i /\ getitem l i = Raise IndexError).
Proof.
  unfold getitem, in_range.
  set (n := Z.of_nat (length l)).
  set (j := if i <? 0 then i + n else i).
  assert (Hj : j = if i <? 0 then i + n else i) by reflexivity.
  destruct (Z.ltb_spec j 0) as [Hlo|Hlo]; simpl.
  { right. split; [|reflexivity].
    destruct (Z.ltb_spec i 0); lia. }
  destruct (Z.leb_spec n j) as [Hhi|Hhi].
  { right. split; [|reflexivity].
    destruct (Z.ltb_spec i 0); lia. }
  left. split.
  { destruct (Z.ltb_spec i 0); lia. }
  destruct (lookup_lt_is_Some_2 l (Z.to_nat j)) as [x Hx]; [lia|].
  exists x. rewrite Hx. reflexivity.
Qed.

Lemma getitem_in_range {A : Type} (l : list A) (i : Z) :
  in_range (length l) i -> exists x, getitem l i = Ok x.
Proof.
  intros H. destruct (getitem_cases l i) as [[_ ?]|[? _]]; tauto.
Qed.

Lemma getitem_out_of_range {A : Type} (l : list A) (i : Z) :
  ~ in_range (length l) i -> getitem l i = Raise IndexError.
Proof.
  intros H. destruct (getitem_cases l i) as [[? _]|[_ ?]]; tauto.
Qed.

Lemma truthy_Some {A : Type} (v : option (list A)) :
  truthy v = true -> exists x l, v = Some (x :: l).
Proof. destruct v as [[|x l]|]; simpl; try discriminate; eauto. Qed.

(** ** Lists of lengths *)

Lemma foldr_min_bounds (x : nat) (l : list nat) :
  (foldr Nat.min x l <= x)%nat /\
  Forall (fun y => (foldr Nat.min x l <= y)%nat) l.
Proof.
  induction l as [|y l [IH1 IH2]]; simpl; [split; [lia|constructor]|].
  split; [lia|]. constructor; [lia|].
  eapply Forall_impl; [exact IH2|]. intros z Hz. simpl in Hz. lia.
Qed.

Lemma foldr_max_bounds (x : nat) (l : list nat) :
  (x <= foldr Nat.max x l)%nat /\
  Forall (fun y => (y <= foldr Nat.max x l)%nat) l.
Proof.
  induction l as [|y l [IH1 IH2]]; simpl; [split; [lia|constructor]|].
  split; [lia|]. constructor; [lia|].
  eapply Forall_impl; [exact IH2|]. intros z Hz. simpl in Hz. lia.
Qed.

Lemma foldr_min_uniform (x : nat) (l : list nat) :
  uniform x l -> foldr Nat.min x l = x.
Proof. induction 1; simpl; [reflexivity|]. subst. lia. Qed.

Lemma foldr_max_uniform (x : nat) (l : list nat) :
  uniform x l -> foldr Nat.max x l = x.
Proof. induction 1; simpl; [reflexivity|]. subst. lia. Qed.

(** [min(l) == max(l)] holds exactly for a list of equal numbers. *)
Lemma min_eq_max_uniform (x : nat) (l : list nat) :
  Nat.eqb (foldr Nat.min x l) (foldr Nat.max x l) = true <-> uniform x l.
Proof.
  rewrite Nat.eqb_eq. split.
  - intros Heq.
    destruct (foldr_min_bounds x l) as [Hx Hl].
    destruct (foldr_max_bounds x l) as [Hx' Hl'].
    unfold uniform. rewrite Forall_forall in *.
    intros y Hy. specialize (Hl y Hy). specialize (Hl' y Hy). lia.
  - intros H. rewrite foldr_min_uniform, foldr_max_uniform; auto.
Qed.

Lemma forallb_eqb_uniform (x : nat) (l : list nat) :
  forallb (Nat.eqb x) l = true <-> uniform x l.
Proof.
  unfold uniform. rewrite forallb_forall, Forall_forall.
  split; intros H y Hy.
  - apply Nat.eqb_eq, H, list_elem_of_In, Hy.
  - apply Nat.eqb_eq, H, list_elem_of_In, Hy.
Qed.

Lemma min_eq_max_all_equal (x : nat) (l : list nat) :
  Nat.eqb (foldr Nat.min x l) (foldr Nat.max x l) = all_equal (x :: l).
Proof.
  apply eq_true_iff_eq. simpl.
  rewrite min_eq_max_uniform, forallb_eqb_uniform. reflexivity.
Qed.

Lemma two_differ_all_equal (l : list nat) :
  two_differ l = negb (all_equal l).
Proof.
  apply eq_true_iff_eq. unfold two_differ.
  rewrite negb_true_iff, existsb_exists. split.
  - intros (a & Ha & Hb). apply existsb_exists in Hb as (b & Hb & Hab).
    apply negb_true_iff, Nat.eqb_neq in Hab.
    destruct l as [|x l]; [destruct Ha|].
    apply not_true_iff_false. intros H. simpl in H.
    apply forallb_eqb_uniform in H. unfold uniform in H.
    rewrite Forall_forall in H.
    assert (Hx : forall y, In y (x :: l) -> x = y).
    { intros y [->|Hy]; [reflexivity|]. apply H, list_elem_of_In, Hy. }
    rewrite <- (Hx a Ha), <- (Hx b Hb) in Hab. congruence.
  - intros H. destruct l as [|x l]; [discriminate|]. simpl in H.
    apply not_true_iff_false in H.
    assert (Hex : exists y, In y l /\ x <> y).
    { clear -H. induction l as [|y l IH]; simpl in *; [congruence|].
      destruct (Nat.eqb_spec x y) as [->|Hne]; simpl in H.
      - destruct (IH H) as (z & Hz & Hxz). exists z. tauto.
      - exists y. tauto. }
    destruct Hex as (y & Hy & Hxy).
    exists x. split; [left; reflexivity|].
    apply existsb_exists. exists y. split; [right; exact Hy|].
    apply negb_true_iff, Nat.eqb_neq, Hxy.
Qed.

Lemma all_equal_app (x y : nat) (l1 l2 : list nat) :
  all_equal ((x :: l1) ++ y :: l2) =
  all_equal (x :: l1) && all_equal (y :: l2) && Nat.eqb x y.
Proof.
  apply eq_true_iff_eq. simpl.
  rewrite forallb_app. simpl. rewrite !andb_true_iff, !forallb_eqb_uniform.
  rewrite Nat.eqb_eq. unfold uniform. split.
  - intros (H1 & Hxy & H2). subst y. tauto.
  - intros ((H1 & H2) & Hxy). subst y. tauto.
Qed.

(** ** Construction of a MultiParameterConfiguration *)

Lemma getitem_head {A : Type} (x : A) (l : list A) :
  getitem (x :: l) 0 = Ok x.
Proof. apply (getitem_lookup (x :: l) 0). reflexivity. Qed.

Lemma nonempty_lengths_sizes fs :
  nonempty_lengths fs =
  MultiParameterConfiguration.attribute_size
    (MultiParameterConfiguration.max_partitions_contributed fs) ++
  MultiParameterConfiguration.attribute_size
    (MultiParameterConfiguration.max_contributions_per_partition fs) ++
  MultiParameterConfiguration.attribute_size
    (MultiParameterConfiguration.min_sum_per_partition fs) ++
  MultiParameterConfiguration.attribute_size
    (MultiParameterConfiguration.max_sum_per_partition fs) ++
  MultiParameterConfiguration.attribute_size
    (MultiParameterConfiguration.noise_kind fs) ++
  MultiParameterConfiguration.attribute_size
    (MultiParameterConfiguration.partition_selection_strategy fs).
Proof.
  unfold nonempty_lengths.
  destruct (MultiParameterConfiguration.max_partitions_contributed fs)
    as [[|? ?]|];
  destruct (MultiParameterConfiguration.max_contributions_per_partition fs)
    as [[|? ?]|];
  destruct (MultiParameterConfiguration.min_sum_per_partition fs)
    as [[|? ?]|];
  destruct (MultiParameterConfiguration.max_sum_per_partition fs)
    as [[|? ?]|];
  destruct (MultiParameterConfiguration.noise_kind fs) as [[|? ?]|];
  destruct (MultiParameterConfiguration.partition_selection_strategy fs)
    as [[|? ?]|];
  reflexivity.
Qed.

Lemma column_counts_app (a b : list SumBound) :
  column_counts (a ++ b) = column_counts a ++ column_counts b.
Proof. apply omap_app. Qed.

Lemma mapM_len_all_lists (a : list SumBound) :
  MultiParameterConfiguration.all_elements_are_lists a = true ->
  mapM len a = Ok (column_counts a).
Proof.
  induction a as [|[x|xs] a IH]; simpl; intros H;
    [reflexivity|discriminate|].
  rewrite (IH H). reflexivity.
Qed.

Lemma common_value_len_all_lists (b : SumBound) (a : list SumBound) :
  MultiParameterConfiguration.all_elements_are_lists (b :: a) = true ->
  exists c l,
    column_counts (b :: a) = c :: l /\
    MultiParameterConfiguration.common_value_len (b :: a) =
      Ok (if all_equal (c :: l) then Some c else None).
Proof.
  intros H. unfold MultiParameterConfiguration.common_value_len.
  rewrite (mapM_len_all_lists _ H).
  destruct b as [x|xs]; [discriminate|]. simpl in H.
  exists (length xs), (column_counts a). split; [reflexivity|].
  change (column_counts (Columns xs :: a))
    with (length xs :: column_counts a).
  cbn [bind py_min py_max]. rewrite min_eq_max_all_equal.
  destruct (all_equal (length xs :: column_counts a)) eqn:E; [|reflexivity].
  simpl in E. apply forallb_eqb_uniform in E.
  rewrite foldr_min_uniform by exact E. reflexivity.
Qed.

(** C1. With alternates [1, 2] for the partition bound and [10, 11] for the
    per-partition bound, over any baseline: construction succeeds, there
    are 2 configurations, and [get_aggregate_params] yields exactly two
    tuples, the first with bounds 1 and 10, the second with bounds 2 and
    11, every other attribute being the baseline's. *)
Theorem example_A_configurations baseline (epsilon delta prob : float)
    (pre : bool) :
  exists ps,
    MultiParameterConfiguration.__init__ example_A = Ok ps /\
    let options :=
      {| UtilityAnalysisOptions.epsilon := epsilon;
         UtilityAnalysisOptions.delta := delta;
         UtilityAnalysisOptions.aggregate_params := baseline;
         UtilityAnalysisOptions.multi_param_configuration := Some ps;
         UtilityAnalysisOptions.partitions_sampling_prob := prob;
         UtilityAnalysisOptions.pre_aggregated_data := pre |} in
    let configuration a b :=
      {| pipeline_dp.max_partitions_contributed := a;
         pipeline_dp.max_contributions_per_partition := b;
         pipeline_dp.min_sum_per_partition :=
           pipeline_dp.min_sum_per_partition baseline;
         pipeline_dp.max_sum_per_partition :=
           pipeline_dp.max_sum_per_partition baseline;
         pipeline_dp.noise_kind := pipeline_dp.noise_kind baseline;
         pipeline_dp.partition_selection_strategy :=
           pipeline_dp.partition_selection_strategy baseline;
         pipeline_dp.rest := pipeline_dp.rest baseline |} in
    n_configurations options = 2%nat /\
    exists bounds0 bounds1,
      get_aggregate_params options =
        ([(configuration 1 10, bounds0); (configuration 2 11, bounds1)], None).
Proof.
  eexists. split; [reflexivity|]. simpl. split; [reflexivity|].
  eexists _, _. reflexivity.
Qed.

(** Outside the defect recorded for C4 below, that is, for a ParameterSet
    whose min-sum and max-sum are each absent or non-empty, construction
    raises [ValueError] exactly when no non-empty sequence is supplied, or
    two non-empty sequences differ in length, or exactly one of min-sum
    and max-sum is set, or, in the multi-column case, two rows of min-sum
    or max-sum differ in column count; otherwise it succeeds and keeps the
    six fields.  On these inputs the two readings of "set" agree. *)
Theorem construction_fails_exactly_when_claimed (r : reading) fs :
  sum_bounds_absent_or_nonempty fs ->
  if claimed_invalid r fs then
    MultiParameterConfiguration.__init__ fs = Raise ValueError
  else
    exists ps,
      MultiParameterConfiguration.__init__ fs = Ok ps /\
      MultiParameterConfiguration.attributes ps = fs.
Proof.
  intros [Hmin Hmax].
  unfold MultiParameterConfiguration.__init__, claimed_invalid.
  rewrite !two_differ_all_equal, nonempty_lengths_sizes.
  unfold MultiParameterConfiguration.__post_init__. cbv zeta.
  match goal with |- context [py_min ?l] => set (sizes := l) end.
  destruct sizes as [|n l]; [reflexivity|].
  cbn [py_min py_max bind orb]. rewrite min_eq_max_all_equal.
  destruct (all_equal (n :: l)); [|reflexivity].
  rewrite getitem_head. cbn [negb bind orb].
  unfold multi_column, rows, is_set.
  destruct (MultiParameterConfiguration.min_sum_per_partition fs)
    as [[|m mins]|]; [congruence| |];
  destruct (MultiParameterConfiguration.max_sum_per_partition fs)
    as [[|M maxs]|]; try congruence;
    destruct r; cbn [is_None xorb eqb negb orb andb truthy];
    try reflexivity; try (cbn; eauto; fail).
  all: cbn [iter bind default]; unfold id.
  all: rewrite forallb_app.
  all: change (forallb isinstance_Sequence)
         with MultiParameterConfiguration.all_elements_are_lists.
  all: destruct
         (MultiParameterConfiguration.all_elements_are_lists (m :: mins))
         eqn:Em; [|cbn; eauto].
  all: destruct
         (MultiParameterConfiguration.all_elements_are_lists (M :: maxs))
         eqn:EM; [|cbn; eauto].
  all: destruct (common_value_len_all_lists _ _ Em) as (c1 & l1 & Hc1 & ->).
  all: destruct (common_value_len_all_lists _ _ EM) as (c2 & l2 & Hc2 & ->).
  all: rewrite column_counts_app, Hc1, Hc2, all_equal_app.
  all: cbn [bind andb].
  all: destruct (all_equal (c1 :: l1)); [|reflexivity].
  all: destruct (all_equal (c2 :: l2)); [|reflexivity].
  all: cbn; destruct (Nat.eqb c1 c2); cbn; eauto.
Qed.

(** A successful [__post_init__] stores the length of the first non-empty
    sequence, which is the length of all of them. *)
Lemma post_init_Ok fs (k : nat) :
  MultiParameterConfiguration.__post_init__ fs = Ok k ->
  exists l, nonempty_lengths fs = k :: l /\ uniform k l.
Proof.
  rewrite nonempty_lengths_sizes.
  unfold MultiParameterConfiguration.__post_init__. cbv zeta.
  match goal with |- context [py_min ?l] => set (sizes := l) end.
  destruct sizes as [|n l]; [discriminate|].
  cbn [py_min py_max bind]. rewrite min_eq_max_all_equal.
  destruct (all_equal (n :: l)) eqn:E; [|discriminate].
  rewrite getitem_head. cbn [negb bind]. intros H.
  assert (Hk : n = k).
  { repeat match type of H with
           | (if ?b then _ else _) = _ => destruct b
           | bind ?r _ = _ => destruct r; cbn [bind] in H
           end; congruence. }
  subst n. exists l. split; [reflexivity|].
  apply forallb_eqb_uniform, E.
Qed.

Lemma init_Ok fs ps :
  MultiParameterConfiguration.__init__ fs = Ok ps ->
  MultiParameterConfiguration.attributes ps = fs /\
  MultiParameterConfiguration.__post_init__ fs =
    Ok (MultiParameterConfiguration.size ps).
Proof.
  unfold MultiParameterConfiguration.__init__.
  destruct (MultiParameterConfiguration.__post_init__ fs) as [n|e];
    cbn [bind]; [|discriminate].
  intros [= <-]. split; reflexivity.
Qed.

(** C6. When the non-empty sequences given to the constructor all have
    length [N], the constructed ParameterSet has size [N], and so has an
    AnalysisOptions that holds it; without a ParameterSet the number of
    configurations is 1. *)
Theorem size_is_common_length fs ps (N : nat) :
  MultiParameterConfiguration.__init__ fs = Ok ps ->
  (forall n, n ∈ nonempty_lengths fs -> n = N) ->
  MultiParameterConfiguration.size ps = N /\
  (forall options : UtilityAnalysisOptions,
     UtilityAnalysisOptions.multi_param_configuration options = Some ps ->
     n_configurations options = N) /\
  (forall options : UtilityAnalysisOptions,
     UtilityAnalysisOptions.multi_param_configuration options = None ->
     n_configurations options = 1%nat).
Proof.
  intros Hinit HN. apply init_Ok in Hinit as [_ Hpost].
  apply post_init_Ok in Hpost as (l & Hl & _).
  assert (Hsize : MultiParameterConfiguration.size ps = N).
  { apply HN. rewrite Hl. left. }
  split; [exact Hsize|]. unfold n_configurations.
  split; intros options ->; [exact Hsize|reflexivity].
Qed.

Lemma post_init_Ok_None fs (k : nat) :
  MultiParameterConfiguration.__post_init__ fs = Ok k ->
  is_None (MultiParameterConfiguration.min_sum_per_partition fs) =
  is_None (MultiParameterConfiguration.max_sum_per_partition fs).
Proof.
  unfold MultiParameterConfiguration.__post_init__. cbv zeta.
  match goal with |- context [py_min ?l] => set (sizes := l) end.
  destruct sizes as [|n l]; [discriminate|].
  cbn [py_min py_max bind]. rewrite min_eq_max_all_equal.
  destruct (all_equal (n :: l)); [|discriminate].
  rewrite getitem_head. cbn [negb bind].
  destruct (eqb _ _) eqn:E; [|discriminate].
  intros _. apply eqb_prop, E.
Qed.

Lemma nonempty_length_truthy {A : Type} (v : option (list A)) :
  truthy v = true ->
  exists l, v = Some l /\ nonempty_length v = Some (length l).
Proof. destruct v as [[|x l]|]; simpl; try discriminate; eauto. Qed.

(** In a constructed object every non-empty sequence has length [size]. *)
Lemma constructed_lengths fs (k : nat) :
  MultiParameterConfiguration.__post_init__ fs = Ok k ->
  forall n, n ∈ nonempty_lengths fs -> n = k.
Proof.
  intros H n Hn. apply post_init_Ok in H as (l & Hl & Hu).
  rewrite Hl in Hn. apply elem_of_cons in Hn as [->|Hn]; [reflexivity|].
  unfold uniform in Hu. rewrite Forall_forall in Hu. symmetry. auto.
Qed.

Lemma subscript_constructed {A : Type} (v : option (list A)) (k : nat) (i : Z) :
  truthy v = true ->
  (forall n, nonempty_length v = Some n -> n = k) ->
  (in_range k i /\ exists x, subscript v i = Ok x) \/
  (~ in_range k i /\ subscript v i = Raise IndexError).
Proof.
  intros Ht Hk. destruct (nonempty_length_truthy v Ht) as (l & -> & Hl).
  rewrite <- (Hk _ Hl). apply getitem_cases.
Qed.

Lemma constructed_fields fs (k : nat) :
  MultiParameterConfiguration.__post_init__ fs = Ok k ->
  (forall n,
     nonempty_length (MultiParameterConfiguration.max_partitions_contributed fs)
       = Some n -> n = k) /\
  (forall n,
     nonempty_length
       (MultiParameterConfiguration.max_contributions_per_partition fs)
       = Some n -> n = k) /\
  (forall n,
     nonempty_length (MultiParameterConfiguration.min_sum_per_partition fs)
       = Some n -> n = k) /\
  (forall n,
     nonempty_length (MultiParameterConfiguration.max_sum_per_partition fs)
       = Some n -> n = k) /\
  (forall n,
     nonempty_length (MultiParameterConfiguration.noise_kind fs)
       = Some n -> n = k) /\
  (forall n,
     nonempty_length
       (MultiParameterConfiguration.partition_selection_strategy fs)
       = Some n -> n = k).
Proof.
  intros H. pose proof (constructed_lengths fs k H) as Hall.
  unfold nonempty_lengths in Hall.
  repeat split; intros n Hn; apply Hall, list_elem_of_omap;
    exists (Some n); (split; [rewrite <- Hn; set_solver|reflexivity]).
Qed.

(** ** Materializing one configuration *)

Lemma attribute_size_falsy {A : Type} (v : option (list A)) :
  truthy v = false -> MultiParameterConfiguration.attribute_size v = [].
Proof. destruct v as [[|x l]|]; simpl; congruence. Qed.

Ltac override_step k i :=
  match goal with
  | |- context [if truthy ?v then _ else _] =>
      let E := fresh "E" in
      let Hx := fresh "Hx" in
      destruct (truthy v) eqn:E;
      [ destruct (subscript_constructed v k i E ltac:(assumption))
          as [[? [? Hx]]|[? Hx]];
        rewrite Hx; cbn [bind]; try tauto
      | cbn [bind] ]
  end.

Lemma truthy_max_sum fs (k : nat) :
  MultiParameterConfiguration.__post_init__ fs = Ok k ->
  sum_bounds_absent_or_nonempty fs ->
  truthy (MultiParameterConfiguration.max_sum_per_partition fs) =
  truthy (MultiParameterConfiguration.min_sum_per_partition fs).
Proof.
  intros H [Hmin Hmax]. apply post_init_Ok_None in H.
  destruct (MultiParameterConfiguration.min_sum_per_partition fs)
    as [[|? ?]|];
  destruct (MultiParameterConfiguration.max_sum_per_partition fs)
    as [[|? ?]|]; simpl in *; congruence.
Qed.

(** C7 (amended). For a validly constructed ParameterSet of size [N] whose
    min-sum and max-sum are each absent or non-empty, and every integer
    [i], materializing raises [IndexError] exactly when [i] is outside
    [-N <= i < N]; and it never raises [ValueError]. *)
Theorem materialize_IndexError_iff_out_of_range fs ps params (i : Z) :
  MultiParameterConfiguration.__init__ fs = Ok ps ->
  sum_bounds_absent_or_nonempty fs ->
  (MultiParameterConfiguration.get_aggregate_params ps params i
     = Raise IndexError <->
   ~ in_range (MultiParameterConfiguration.size ps) i) /\
  (forall e,
     MultiParameterConfiguration.get_aggregate_params ps params i = Raise e ->
     e <> ValueError).
Proof.
  intros Hinit Hsum.
  apply init_Ok in Hinit as [Hfs Hpost].
  pose proof (truthy_max_sum _ _ Hpost Hsum) as Hmax.
  destruct (post_init_Ok _ _ Hpost) as (l & Hl & _).
  rewrite nonempty_lengths_sizes in Hl.
  destruct (constructed_fields _ _ Hpost) as (H1 & H2 & H3 & H4 & H5 & H6).
  unfold MultiParameterConfiguration.get_aggregate_params. rewrite Hfs.
  set (k := MultiParameterConfiguration.size ps) in *.
  assert (Hdec : in_range k i \/ ~ in_range k i) by (unfold in_range; lia).
  destruct Hdec as [Hin|Hout].
  - (* in range: every subscript returns *)
    do 4 override_step k i; override_step k i.
    all: try (split; [split; [discriminate|tauto]|intros e [=]]).
    all: destruct (subscript_constructed _ k i Hmax H4)
           as [[_ [y Hy]]|[? _]]; [|tauto]; rewrite Hy; cbn [bind].
    all: match goal with
         | |- context [isinstance_Sequence ?m] => destruct m, y
         end; cbn.
    all: split; [split; [discriminate|tauto]|intros e [=]; subst; discriminate].
  - (* out of range: the first non-empty sequence raises *)
    repeat override_step k i.
    all: try (split; [tauto|intros e [= <-]; discriminate]).
    rewrite !attribute_size_falsy in Hl by assumption. discriminate.
Qed.

(** C3. With min-sum [[1, 2], [3, 4]] and max-sum [[5, 6], [7, 8]],
    construction succeeds and the bound pairs of configuration 0 are
    [(1, 5), (2, 6)], those of configuration 1 are [(3, 7), (4, 8)]; and
    for every constructed ParameterSet, when element [i] of min-sum and
    element [i] of max-sum are sequences, materializing [i] returns their
    columns paired position by position. *)
Theorem multi_column_bounds_are_paired_by_position :
  (forall baseline (epsilon delta prob : float) (pre : bool),
     exists ps configuration0 configuration1,
       MultiParameterConfiguration.__init__ example_B = Ok ps /\
       get_aggregate_params
         {| UtilityAnalysisOptions.epsilon := epsilon;
            UtilityAnalysisOptions.delta := delta;
            UtilityAnalysisOptions.aggregate_params := baseline;
            UtilityAnalysisOptions.multi_param_configuration := Some ps;
            UtilityAnalysisOptions.partitions_sampling_prob := prob;
            UtilityAnalysisOptions.pre_aggregated_data := pre |} =
         ([(configuration0,
            [(Scalar 1, Scalar 5); (Scalar 2, Scalar 6)]);
           (configuration1,
            [(Scalar 3, Scalar 7); (Scalar 4, Scalar 8)])], None)) /\
  (forall fs ps params (i : nat) mins maxs xs ys,
     MultiParameterConfiguration.__init__ fs = Ok ps ->
     MultiParameterConfiguration.min_sum_per_partition fs = Some mins ->
     MultiParameterConfiguration.max_sum_per_partition fs = Some maxs ->
     mins !! i = Some (Columns xs) ->
     maxs !! i = Some (Columns ys) ->
     exists configuration,
       MultiParameterConfiguration.get_aggregate_params ps params (Z.of_nat i)
         = Ok (configuration, combine (Scalar <$> xs) (Scalar <$> ys))).
Proof.
  split.
  { intros. eexists _, _, _. split; reflexivity. }
  intros fs ps params i mins maxs xs ys Hinit Hmin Hmax Hi Hi'.
  apply init_Ok in Hinit as [Hfs Hpost].
  destruct (constructed_fields _ _ Hpost) as (H1 & H2 & H3 & H4 & H5 & H6).
  unfold MultiParameterConfiguration.get_aggregate_params. rewrite Hfs.
  set (k := MultiParameterConfiguration.size ps) in *.
  assert (Hin : in_range k (Z.of_nat i)).
  { pose proof (lookup_lt_Some _ _ _ Hi) as Hlt.
    rewrite Hmin in H3. destruct mins as [|m mins]; [discriminate|].
    rewrite <- (H3 _ eq_refl). unfold in_range. lia. }
  do 4 override_step k (Z.of_nat i).
  all: rewrite Hmin, Hmax; cbn [subscript].
  all: destruct mins as [|m mins]; [discriminate|]; cbn [truthy].
  all: rewrite (getitem_lookup _ _ _ Hi), (getitem_lookup _ _ _ Hi').
  all: cbn; eauto.
Qed.

(** ** The module-level functions *)

(** C2. Without a ParameterSet, [get_aggregate_params] yields exactly one
    tuple: the baseline configuration, with the single bound pair made of
    the baseline's min-sum and max-sum. *)
Theorem no_parameter_set_yields_the_baseline (options : UtilityAnalysisOptions) :
  UtilityAnalysisOptions.multi_param_configuration options = None ->
  get_aggregate_params options =
    ([(UtilityAnalysisOptions.aggregate_params options,
       [(pipeline_dp.min_sum_per_partition
           (UtilityAnalysisOptions.aggregate_params options),
         pipeline_dp.max_sum_per_partition
           (UtilityAnalysisOptions.aggregate_params options))])], None).
Proof. intros H. unfold get_aggregate_params. rewrite H. reflexivity. Qed.

(** Outside the defect recorded for C5 below, that is, unless the strategy
    sequence is an empty list, there is one strategy per configuration:
    the supplied sequence as it is, or else the baseline's repeated. *)
Lemma one_strategy_per_configuration fs ps (options : UtilityAnalysisOptions) :
  MultiParameterConfiguration.__init__ fs = Ok ps ->
  MultiParameterConfiguration.partition_selection_strategy fs <> Some [] ->
  UtilityAnalysisOptions.multi_param_configuration options = Some ps ->
  length (get_partition_selection_strategy options) = n_configurations options
  /\ get_partition_selection_strategy options =
       default
         (replicate (n_configurations options)
            (pipeline_dp.partition_selection_strategy
               (UtilityAnalysisOptions.aggregate_params options)))
         (MultiParameterConfiguration.partition_selection_strategy fs).
Proof.
  intros Hinit Hne Hps. apply init_Ok in Hinit as [Hfs Hpost].
  destruct (constructed_fields _ _ Hpost) as (_ & _ & _ & _ & _ & H6).
  unfold get_partition_selection_strategy, n_configurations.
  rewrite Hps, Hfs.
  destruct (MultiParameterConfiguration.partition_selection_strategy fs)
    as [[|x l]|]; [congruence| |].
  - split; [|reflexivity]. apply (H6 _ eq_refl).
  - split; [apply length_replicate|reflexivity].
Qed.

Lemma strategies_without_parameter_set (options : UtilityAnalysisOptions) :
  UtilityAnalysisOptions.multi_param_configuration options = None ->
  get_partition_selection_strategy options =
    [pipeline_dp.partition_selection_strategy
       (UtilityAnalysisOptions.aggregate_params options)]
  /\ n_configurations options = 1%nat.
Proof.
  intros H. unfold get_partition_selection_strategy, n_configurations.
  rewrite H. split; reflexivity.
Qed.

(** C5 (defect). A ParameterSet built with partition bounds [1, 2] and an
    empty strategy sequence is accepted and has 2 configurations, but
    [get_partition_selection_strategy] returns the empty sequence, not one
    strategy per configuration; materializing, for its part, takes the
    baseline's strategy for both. *)
Theorem empty_strategies_are_returned_as_they_are
    baseline (epsilon delta prob : float) (pre : bool) :
  exists ps,
    MultiParameterConfiguration.__init__ example_no_strategies = Ok ps /\
    let options :=
      {| UtilityAnalysisOptions.epsilon := epsilon;
         UtilityAnalysisOptions.delta := delta;
         UtilityAnalysisOptions.aggregate_params := baseline;
         UtilityAnalysisOptions.multi_param_configuration := Some ps;
         UtilityAnalysisOptions.partitions_sampling_prob := prob;
         UtilityAnalysisOptions.pre_aggregated_data := pre |} in
    n_configurations options = 2%nat /\
    get_partition_selection_strategy options = [] /\
    exists items,
      get_aggregate_params options = (items, None) /\
      (pipeline_dp.partition_selection_strategy ∘ fst) <$> items =
        [pipeline_dp.partition_selection_strategy baseline;
         pipeline_dp.partition_selection_strategy baseline].
Proof.
  eexists. split; [reflexivity|]. simpl.
  split; [reflexivity|]. split; [reflexivity|].
  eexists. split; reflexivity.
Qed.

(** ** Further properties of construction *)

Lemma nonempty_length_positive {A : Type} (v : option (list A)) (n : nat) :
  nonempty_length v = Some n -> (0 < n)%nat.
Proof.
  destruct v as [[|x l]|]; simpl; try discriminate.
  intros [= <-]. lia.
Qed.

Lemma nonempty_lengths_positive fs (n : nat) :
  n ∈ nonempty_lengths fs -> (0 < n)%nat.
Proof.
  unfold nonempty_lengths. intros H.
  apply list_elem_of_omap in H as (v & Hv & Hn). simpl in Hn. subst v.
  repeat (apply elem_of_cons in Hv as [Hv|Hv];
          [symmetry in Hv; exact (nonempty_length_positive _ _ Hv)|]).
  apply elem_of_nil in Hv. contradiction.
Qed.

(** X1. A constructed ParameterSet has at least one configuration, and
    each of the six sequences that is supplied and not empty has exactly
    [size] elements. *)
Theorem constructed_sequences_have_length_size fs ps :
  MultiParameterConfiguration.__init__ fs = Ok ps ->
  (0 < MultiParameterConfiguration.size ps)%nat /\
  nonempty_lengths fs <> [] /\
  (forall n, n ∈ nonempty_lengths fs -> n = MultiParameterConfiguration.size ps).
Proof.
  intros H. apply init_Ok in H as [_ Hpost].
  destruct (post_init_Ok _ _ Hpost) as (l & Hl & _).
  split; [|split].
  - apply (nonempty_lengths_positive fs). rewrite Hl. left.
  - rewrite Hl. discriminate.
  - apply constructed_lengths, Hpost.
Qed.

(** X2. Whatever the six sequences, construction returns an object or
    raises [ValueError]: no [TypeError] or [IndexError] escapes from the
    length computations of [__post_init__]. *)
Theorem construction_raises_only_ValueError fs (e : exception) :
  MultiParameterConfiguration.__init__ fs = Raise e -> e = ValueError.
Proof.
  unfold MultiParameterConfiguration.__init__,
    MultiParameterConfiguration.__post_init__. cbv zeta.
  match goal with |- context [py_min ?l] => set (sizes := l) end.
  destruct sizes as [|n l]; [intros [= <-]; reflexivity|].
  cbn [py_min py_max bind].
  destruct (negb _); [intros [= <-]; reflexivity|].
  rewrite getitem_head. cbn [bind].
  destruct (MultiParameterConfiguration.min_sum_per_partition fs)
    as [[|m mins]|];
  destruct (MultiParameterConfiguration.max_sum_per_partition fs)
    as [maxs|]; cbn [is_None eqb negb truthy iter bind];
    try discriminate; try (intros [= <-]; reflexivity).
  destruct (MultiParameterConfiguration.all_elements_are_lists (m :: mins))
    eqn:Em; cbn [andb bind]; [|discriminate].
  destruct (MultiParameterConfiguration.all_elements_are_lists maxs)
    eqn:EM; cbn [bind]; [|discriminate].
  destruct (common_value_len_all_lists _ _ Em) as (c1 & l1 & _ & ->).
  cbn [bind].
  destruct maxs as [|M maxs].
  { cbn. intros [= <-]. reflexivity. }
  destruct (common_value_len_all_lists _ _ EM) as (c2 & l2 & _ & ->).
  cbn [bind]. destruct (_ || _); cbn; [intros [= <-]; reflexivity|discriminate].
Qed.

(** ** Further properties of materializing *)

Lemma getitem_nat_Ok {A : Type} (l : list A) (n : nat) (x : A) :
  getitem l (Z.of_nat n) = Ok x -> l !! n = Some x.
Proof.
  unfold getitem.
  destruct (Z.ltb_spec (Z.of_nat n) 0) as [?|_]; [lia|].
  destruct (_ || _); [discriminate|].
  rewrite Nat2Z.id. destruct (l !! n); [congruence|discriminate].
Qed.

Lemma supplied_value {A : Type} (v : option (list A)) (n : nat) (d x : A) :
  subscript v (Z.of_nat n) = Ok x ->
  default d (v ≫= (fun l => l !! n)) = x.
Proof.
  destruct v as [l|]; simpl; [|discriminate].
  intros H. rewrite (getitem_nat_Ok _ _ _ H). reflexivity.
Qed.

Lemma unsupplied_value {A : Type} (v : option (list A)) (n : nat) (d : A) :
  truthy v = false -> default d (v ≫= (fun l => l !! n)) = d.
Proof. destruct v as [[|x l]|]; simpl; congruence. Qed.

Ltac eval_override H :=
  match type of H with
  | context [if truthy ?v then _ else _] =>
      let E := fresh "E" in
      let Ex := fresh "Ex" in
      destruct (truthy v) eqn:E;
      [ destruct (subscript v _) as [?x|?e] eqn:Ex; cbn [bind] in H;
        [|discriminate H]
      | cbn [bind] in H ]
  end.

(** X3. Whenever materializing index [i] returns a configuration, each of
    the partition bound, the per-partition bound, the noise kind and the
    selection strategy is element [i] of its sequence if that sequence is
    supplied and not empty, and the baseline's value otherwise; min-sum,
    max-sum and every remaining attribute are the baseline's. *)
Theorem materialize_overrides_supplied_attributes
    ps params (i : nat) configuration bounds :
  MultiParameterConfiguration.get_aggregate_params ps params (Z.of_nat i)
    = Ok (configuration, bounds) ->
  pipeline_dp.max_partitions_contributed configuration =
    default (pipeline_dp.max_partitions_contributed params)
      (MultiParameterConfiguration.max_partitions_contributed ps
         ≫= (fun l => l !! i)) /\
  pipeline_dp.max_contributions_per_partition configuration =
    default (pipeline_dp.max_contributions_per_partition params)
      (MultiParameterConfiguration.max_contributions_per_partition ps
         ≫= (fun l => l !! i)) /\
  pipeline_dp.noise_kind configuration =
    default (pipeline_dp.noise_kind params)
      (MultiParameterConfiguration.noise_kind ps ≫= (fun l => l !! i)) /\
  pipeline_dp.partition_selection_strategy configuration =
    default (pipeline_dp.partition_selection_strategy params)
      (MultiParameterConfiguration.partition_selection_strategy ps
         ≫= (fun l => l !! i)) /\
  pipeline_dp.min_sum_per_partition configuration =
    pipeline_dp.min_sum_per_partition params /\
  pipeline_dp.max_sum_per_partition configuration =
    pipeline_dp.max_sum_per_partition params /\
  pipeline_dp.rest configuration = pipeline_dp.rest params.
Proof.
  intros H. unfold MultiParameterConfiguration.get_aggregate_params in H.
  do 4 eval_override H.
  all: assert (Hc : exists b, Ok (configuration, bounds) = Ok b /\
                     fst b = configuration) by (eexists; split; reflexivity).
  all: rewrite <- H in Hc; clear H; destruct Hc as (b & H & <-).
  all: repeat match type of H with
              | (if ?c then _ else _) = _ => destruct c
              | bind ?r _ = _ => destruct r; cbn [bind] in H
              end; try discriminate H; injection H as <-.
  all: cbn [fst pipeline_dp.max_partitions_contributed
            pipeline_dp.max_contributions_per_partition
            pipeline_dp.noise_kind pipeline_dp.partition_selection_strategy
            pipeline_dp.min_sum_per_partition
            pipeline_dp.max_sum_per_partition pipeline_dp.rest
            pipeline_dp.set_max_partitions_contributed
            pipeline_dp.set_max_contributions_per_partition
            pipeline_dp.set_noise_kind
            pipeline_dp.set_partition_selection_strategy].
  all: repeat match goal with
              | Ex : subscript ?v _ = Ok ?x |- _ =>
                  rewrite (supplied_value v i _ x Ex); clear Ex
              | E : truthy ?v = false |- _ =>
                  rewrite (unsupplied_value v i _ E); clear E
              end.
  all: repeat split; reflexivity.
Qed.

(** For an index in range the four overrides of a constructed object
    succeed; what is left to run is the computation of the bound pairs. *)
Lemma materialize_in_range fs ps params (i : Z) :
  MultiParameterConfiguration.__init__ fs = Ok ps ->
  in_range (MultiParameterConfiguration.size ps) i ->
  exists q,
    MultiParameterConfiguration.get_aggregate_params ps params i =
      (if truthy (MultiParameterConfiguration.min_sum_per_partition fs) then
         min_sum <-
           subscript (MultiParameterConfiguration.min_sum_per_partition fs) i ;;
         max_sum <-
           subscript (MultiParameterConfiguration.max_sum_per_partition fs) i ;;
         if isinstance_Sequence min_sum then
           min_max_sum <- zip min_sum max_sum ;;
           Ok (q, min_max_sum)
         else Ok (q, [(min_sum, max_sum)])
       else
         Ok (q, [(pipeline_dp.min_sum_per_partition params,
                  pipeline_dp.max_sum_per_partition params)])).
Proof.
  intros Hinit Hin. apply init_Ok in Hinit as [Hfs Hpost].
  destruct (constructed_fields _ _ Hpost) as (H1 & H2 & H3 & H4 & H5 & H6).
  unfold MultiParameterConfiguration.get_aggregate_params. rewrite Hfs.
  set (k := MultiParameterConfiguration.size ps) in *.
  do 4 override_step k i.
  all: eexists; reflexivity.
Qed.

Lemma constructed_lookup {A : Type} (v : option (list A)) (k i : nat) :
  truthy v = true ->
  (forall n, nonempty_length v = Some n -> n = k) ->
  (i < k)%nat ->
  exists l x, v = Some l /\ l !! i = Some x /\ subscript v (Z.of_nat i) = Ok x.
Proof.
  intros Ht Hk Hi. destruct (nonempty_length_truthy v Ht) as (l & -> & Hl).
  specialize (Hk _ Hl).
  destruct (lookup_lt_is_Some_2 l i) as [x Hx]; [lia|].
  exists l, x. split; [reflexivity|]. split; [exact Hx|].
  apply getitem_lookup, Hx.
Qed.

(** X4. When the ParameterSet supplies no min-sum (absent or empty),
    materializing any index in range returns the single bound pair made of
    the baseline's min-sum and max-sum. *)
Theorem bounds_fall_back_to_the_baseline fs ps params (i : Z) :
  MultiParameterConfiguration.__init__ fs = Ok ps ->
  truthy (MultiParameterConfiguration.min_sum_per_partition fs) = false ->
  in_range (MultiParameterConfiguration.size ps) i ->
  exists configuration,
    MultiParameterConfiguration.get_aggregate_params ps params i =
      Ok (configuration,
          [(pipeline_dp.min_sum_per_partition params,
            pipeline_dp.max_sum_per_partition params)]).
Proof.
  intros Hinit Hmin Hin.
  destruct (materialize_in_range fs ps params i Hinit Hin) as (q & ->).
  rewrite Hmin. eauto.
Qed.

(** X5. When element [i] of min-sum is a scalar, materializing [i] returns
    one bound pair: that scalar with element [i] of max-sum. *)
Theorem scalar_bounds_are_a_single_pair
    fs ps params (i : nat) mins maxs (x : float) (y : SumBound) :
  MultiParameterConfiguration.__init__ fs = Ok ps ->
  MultiParameterConfiguration.min_sum_per_partition fs = Some mins ->
  MultiParameterConfiguration.max_sum_per_partition fs = Some maxs ->
  mins !! i = Some (Scalar x) ->
  maxs !! i = Some y ->
  exists configuration,
    MultiParameterConfiguration.get_aggregate_params ps params (Z.of_nat i)
      = Ok (configuration, [(Scalar x, y)]).
Proof.
  intros Hinit Hmin Hmax Hi Hi'.
  assert (Hin : in_range (MultiParameterConfiguration.size ps) (Z.of_nat i)).
  { pose proof (init_Ok _ _ Hinit) as [_ Hpost].
    destruct (constructed_fields _ _ Hpost) as (_ & _ & H3 & _).
    pose proof (lookup_lt_Some _ _ _ Hi) as Hlt.
    rewrite Hmin in H3. destruct mins as [|m mins]; [discriminate|].
    rewrite <- (H3 _ eq_refl). unfold in_range. lia. }
  destruct (materialize_in_range fs ps params _ Hinit Hin) as (q & ->).
  rewrite Hmin, Hmax. cbn [subscript].
  destruct mins as [|m mins]; [discriminate|]. cbn [truthy].
  rewrite (getitem_lookup _ _ _ Hi), (getitem_lookup _ _ _ Hi').
  cbn. eauto.
Qed.

(** X6. Construction does not compare the shapes of min-sum and max-sum
    unless all their elements are sequences: when element [i] of min-sum
    is a sequence and element [i] of max-sum is a scalar, materializing
    [i] raises [TypeError]. *)
Theorem sequence_against_scalar_raises_TypeError
    fs ps params (i : nat) mins maxs (xs : list float) (y : float) :
  MultiParameterConfiguration.__init__ fs = Ok ps ->
  MultiParameterConfiguration.min_sum_per_partition fs = Some mins ->
  MultiParameterConfiguration.max_sum_per_partition fs = Some maxs ->
  mins !! i = Some (Columns xs) ->
  maxs !! i = Some (Scalar y) ->
  MultiParameterConfiguration.get_aggregate_params ps params (Z.of_nat i)
    = Raise TypeError.
Proof.
  intros Hinit Hmin Hmax Hi Hi'.
  assert (Hin : in_range (MultiParameterConfiguration.size ps) (Z.of_nat i)).
  { pose proof (init_Ok _ _ Hinit) as [_ Hpost].
    destruct (constructed_fields _ _ Hpost) as (_ & _ & H3 & _).
    pose proof (lookup_lt_Some _ _ _ Hi) as Hlt.
    rewrite Hmin in H3. destruct mins as [|m mins]; [discriminate|].
    rewrite <- (H3 _ eq_refl). unfold in_range. lia. }
  destruct (materialize_in_range fs ps params _ Hinit Hin) as (q & ->).
  rewrite Hmin, Hmax. cbn [subscript].
  destruct mins as [|m mins]; [discriminate|]. cbn [truthy].
  rewrite (getitem_lookup _ _ _ Hi), (getitem_lookup _ _ _ Hi').
  reflexivity.
Qed.

Lemma all_equal_uniform (c : nat) (l : list nat) :
  all_equal (c :: l) = true -> uniform c (c :: l).
Proof.
  simpl. intros H. constructor; [reflexivity|].
  apply forallb_eqb_uniform, H.
Qed.

(** What a successful construction has checked in the multi-column case. *)
Lemma post_init_multi_column fs (k : nat) m mins maxs :
  MultiParameterConfiguration.__post_init__ fs = Ok k ->
  MultiParameterConfiguration.min_sum_per_partition fs = Some (m :: mins) ->
  MultiParameterConfiguration.max_sum_per_partition fs = Some maxs ->
  MultiParameterConfiguration.all_elements_are_lists (m :: mins) = true ->
  MultiParameterConfiguration.all_elements_are_lists maxs = true ->
  exists c,
    MultiParameterConfiguration.common_value_len (m :: mins) = Ok (Some c) /\
    MultiParameterConfiguration.common_value_len maxs = Ok (Some c) /\
    uniform c (column_counts (m :: mins)) /\
    uniform c (column_counts maxs) /\
    maxs <> [].
Proof.
  intros H Hmin Hmax Em EM. revert H.
  unfold MultiParameterConfiguration.__post_init__. cbv zeta.
  match goal with |- context [py_min ?l] => set (sizes := l) end.
  destruct sizes as [|n l]; [discriminate|].
  cbn [py_min py_max bind].
  destruct (negb _); [discriminate|].
  rewrite getitem_head, Hmin, Hmax.
  cbn [bind is_None eqb negb truthy iter]. rewrite Em, EM. cbn [andb].
  destruct (common_value_len_all_lists _ _ Em) as (c1 & l1 & Hc1 & ->).
  cbn [bind].
  destruct maxs as [|M maxs]; [discriminate|].
  destruct (common_value_len_all_lists _ _ EM) as (c2 & l2 & Hc2 & ->).
  cbn [bind]. rewrite Hc1, Hc2.
  destruct (all_equal (c1 :: l1)) eqn:E1; [|discriminate].
  destruct (all_equal (c2 :: l2)) eqn:E2; [|discriminate].
  cbn. destruct (Nat.eqb_spec c1 c2) as [->|?]; [|discriminate].
  intros _. exists c2.
  split; [reflexivity|]. split; [reflexivity|].
  split; [|split]; [apply all_equal_uniform, E1
                   |apply all_equal_uniform, E2|discriminate].
Qed.

Lemma uniform_column_count (a : list SumBound) (c i : nat) (b : SumBound) :
  MultiParameterConfiguration.all_elements_are_lists a = true ->
  uniform c (column_counts a) ->
  a !! i = Some b ->
  exists xs, b = Columns xs /\ length xs = c.
Proof.
  revert i. induction a as [|[x|ys] a IH]; intros i Ha Hu Hi;
    [discriminate|discriminate|].
  change (column_counts (Columns ys :: a))
    with (length ys :: column_counts a) in Hu.
  apply Forall_cons in Hu as [Hc Hu].
  destruct i as [|i]; simpl in Hi.
  - injection Hi as <-. eauto.
  - exact (IH i Ha Hu Hi).
Qed.

(** X7. In the multi-column case, where every element of min-sum and of
    max-sum is a sequence, construction has checked the column counts:
    [common_value_len] gives one count [c] for min-sum and for max-sum,
    every row of both has [c] columns, materializing succeeds at every
    index from 0 to [size - 1], and every configuration gets exactly [c]
    bound pairs. *)
Theorem multi_column_configurations_have_equally_many_bounds
    fs ps params m mins maxs :
  MultiParameterConfiguration.__init__ fs = Ok ps ->
  MultiParameterConfiguration.min_sum_per_partition fs = Some (m :: mins) ->
  MultiParameterConfiguration.max_sum_per_partition fs = Some maxs ->
  MultiParameterConfiguration.all_elements_are_lists (m :: mins) = true ->
  MultiParameterConfiguration.all_elements_are_lists maxs = true ->
  exists c,
    MultiParameterConfiguration.common_value_len (m :: mins) = Ok (Some c) /\
    MultiParameterConfiguration.common_value_len maxs = Ok (Some c) /\
    uniform c (column_counts (m :: mins)) /\
    uniform c (column_counts maxs) /\
    forall i : nat,
      (i < MultiParameterConfiguration.size ps)%nat ->
      exists configuration bounds,
        MultiParameterConfiguration.get_aggregate_params
          ps params (Z.of_nat i) = Ok (configuration, bounds) /\
        length bounds = c.
Proof.
  intros Hinit Hmin Hmax Em EM.
  pose proof (init_Ok _ _ Hinit) as [_ Hpost].
  destruct (post_init_multi_column _ _ _ _ _ Hpost Hmin Hmax Em EM)
    as (c & Hlen & Hlen' & Hu & Hu' & Hne).
  destruct (constructed_fields _ _ Hpost) as (_ & _ & H3 & H4 & _).
  exists c. do 4 (split; [assumption|]). intros i Hi.
  assert (Hin : in_range (MultiParameterConfiguration.size ps) (Z.of_nat i))
    by (unfold in_range; lia).
  destruct (materialize_in_range fs ps params _ Hinit Hin) as (q & ->).
  assert (Htmax : truthy (Some maxs) = true)
    by (destruct maxs; [congruence|reflexivity]).
  rewrite Hmin, Hmax in *.
  destruct (constructed_lookup (Some (m :: mins)) _ i eq_refl H3 Hi)
    as (? & a & [= <-] & Ha & ->).
  destruct (constructed_lookup _ _ i Htmax H4 Hi)
    as (? & b & [= <-] & Hb & ->).
  destruct (uniform_column_count _ _ _ _ Em Hu Ha) as (xs & -> & Hxs).
  destruct (uniform_column_count _ _ _ _ EM Hu' Hb) as (ys & -> & Hys).
  cbn. eexists _, _. split; [reflexivity|].
  rewrite length_combine, !length_fmap. lia.
Qed.

(** ** Further properties of the module-level functions *)

Lemma range_lookup (n k : nat) (x : Z) :
  range n !! k = Some x <-> (k < n)%nat /\ x = Z.of_nat k.
Proof.
  unfold range. rewrite list_lookup_fmap, fmap_Some. split.
  - intros (j & Hj & ->). apply lookup_seq in Hj as [-> ?]. auto.
  - intros [Hk ->]. exists k. split; [|reflexivity].
    apply lookup_seq. auto.
Qed.

Lemma range_length (n : nat) : length (range n) = n.
Proof. unfold range. rewrite length_fmap. apply length_seq. Qed.

(** A generator made of a loop yields the results of its body in order,
    up to the first element on which the body raises. *)
Lemma for_yield_cases {A B : Type} (body : A -> result B) (xs : list A) :
  forall ys ending,
    for_yield body xs = (ys, ending) ->
    (forall k x y, xs !! k = Some x -> ys !! k = Some y -> body x = Ok y) /\
    match ending with
    | None => length ys = length xs
    | Some e => exists x, xs !! length ys = Some x /\ body x = Raise e
    end.
Proof.
  induction xs as [|x xs IH]; intros ys ending; simpl.
  { intros [= <- <-]. split; [intros k x y Hk; discriminate|reflexivity]. }
  destruct (body x) as [y|e] eqn:Hx.
  2:{ intros [= <- <-]. split; [intros k x' y' _ Hk; discriminate|].
      exists x. split; [reflexivity|exact Hx]. }
  destruct (for_yield body xs) as [ys' ending'] eqn:Hrest.
  intros [= <- <-]. destruct (IH _ _ eq_refl) as [Hk Hend].
  split.
  - intros [|k] x' y'; simpl; [congruence|apply Hk].
  - destruct ending' as [e|]; simpl; [exact Hend|congruence].
Qed.

Lemma for_yield_all_Ok {A B : Type} (body : A -> result B) (xs : list A) :
  (forall k x, xs !! k = Some x -> exists y, body x = Ok y) ->
  exists ys, for_yield body xs = (ys, None) /\ length ys = length xs.
Proof.
  induction xs as [|x xs IH]; intros H; simpl; [eauto|].
  destruct (H 0%nat x eq_refl) as [y ->].
  destruct IH as (ys & -> & Hlen).
  { intros k x' Hk. apply (H (S k)), Hk. }
  exists (y :: ys). simpl. auto.
Qed.

(** X8. With a ParameterSet, [get_aggregate_params] yields, in index
    order from 0, what materializing each index returns, and stops at the
    first index at which materializing raises, with that exception; it
    ends normally only after [size] tuples. *)
Theorem get_aggregate_params_yields_in_index_order
    (options : UtilityAnalysisOptions) ps items ending :
  UtilityAnalysisOptions.multi_param_configuration options = Some ps ->
  get_aggregate_params options = (items, ending) ->
  (forall (k : nat) item,
     items !! k = Some item ->
     MultiParameterConfiguration.get_aggregate_params ps
       (UtilityAnalysisOptions.aggregate_params options) (Z.of_nat k)
       = Ok item) /\
  match ending with
  | None => length items = MultiParameterConfiguration.size ps
  | Some e =>
      (length items < MultiParameterConfiguration.size ps)%nat /\
      MultiParameterConfiguration.get_aggregate_params ps
        (UtilityAnalysisOptions.aggregate_params options)
        (Z.of_nat (length items)) = Raise e
  end.
Proof.
  intros Hps. unfold get_aggregate_params. rewrite Hps. intros H.
  apply for_yield_cases in H as [Hk Hend]. split.
  - intros k item Hitem.
    assert (Hlt : (k < length (range (MultiParameterConfiguration.size ps)))%nat).
    { destruct ending as [e|].
      - destruct Hend as (x & Hx & _). apply lookup_lt_Some in Hx, Hitem. lia.
      - rewrite <- Hend. apply lookup_lt_Some in Hitem. exact Hitem. }
    rewrite range_length in Hlt.
    apply (Hk k (Z.of_nat k) item); [|exact Hitem].
    apply range_lookup. auto.
  - destruct ending as [e|].
    + destruct Hend as (x & Hx & He).
      apply range_lookup in Hx as [Hlt ->]. auto.
    + rewrite Hend. apply range_length.
Qed.

(** Materializing succeeds at every index from 0 to [size - 1] exactly
    when the shapes of min-sum and max-sum agree. *)
Lemma materialize_Ok_iff_shapes_agree fs ps params :
  MultiParameterConfiguration.__init__ fs = Ok ps ->
  shapes_agree fs <->
  (forall i : nat,
     (i < MultiParameterConfiguration.size ps)%nat ->
     exists item,
       MultiParameterConfiguration.get_aggregate_params
         ps params (Z.of_nat i) = Ok item).
Proof.
  intros Hinit.
  pose proof (init_Ok _ _ Hinit) as [_ Hpost].
  destruct (constructed_fields _ _ Hpost) as (_ & _ & H3 & H4 & _).
  assert (Hin : forall i : nat,
            (i < MultiParameterConfiguration.size ps)%nat ->
            in_range (MultiParameterConfiguration.size ps) (Z.of_nat i))
    by (intros i Hi; unfold in_range; lia).
  unfold shapes_agree. split.
  - intros Hs i Hi.
    destruct (materialize_in_range fs ps params _ Hinit (Hin i Hi)) as (q & ->).
    destruct (MultiParameterConfiguration.min_sum_per_partition fs)
      as [[|m mins]|]; cbn [truthy]; eauto.
    destruct Hs as (maxs & -> & Hs). cbn [subscript].
    pose proof (Forall2_length _ _ _ Hs) as Hlen.
    pose proof (H3 _ eq_refl) as Hsize.
    destruct (lookup_lt_is_Some_2 (m :: mins) i) as [a Ha]; [lia|].
    destruct (lookup_lt_is_Some_2 maxs i) as [b Hb]; [lia|].
    pose proof (Forall2_lookup_lr _ _ _ _ _ _ Hs Ha Hb) as Hab.
    rewrite (getitem_lookup _ _ _ Ha), (getitem_lookup _ _ _ Hb).
    destruct a as [x|xs]; cbn; [eauto|].
    destruct b as [y|ys]; cbn; [|eauto].
    specialize (Hab eq_refl). discriminate.
  - intros Hall.
    destruct (MultiParameterConfiguration.min_sum_per_partition fs)
      as [[|m mins]|] eqn:Emin; try exact I.
    pose proof (H3 _ eq_refl) as Hsize.
    assert (Hat : forall i : nat,
              (i < MultiParameterConfiguration.size ps)%nat ->
              exists a b,
                (m :: mins) !! i = Some a /\
                subscript (MultiParameterConfiguration.max_sum_per_partition fs)
                  (Z.of_nat i) = Ok b /\
                (isinstance_Sequence a = true -> isinstance_Sequence b = true)).
    { intros i Hi. destruct (Hall i Hi) as [item Hitem].
      destruct (materialize_in_range fs ps params _ Hinit (Hin i Hi))
        as (q & Hq).
      rewrite Hq, Emin in Hitem. cbn [truthy subscript] in Hitem.
      destruct (lookup_lt_is_Some_2 (m :: mins) i) as [a Ha]; [lia|].
      rewrite (getitem_lookup _ _ _ Ha) in Hitem. cbn [bind] in Hitem.
      destruct (subscript _ (Z.of_nat i)) as [b|e]; [|discriminate].
      exists a, b. split; [exact Ha|]. split; [reflexivity|].
      clear Hq. destruct a, b; cbn in Hitem |- *;
        try discriminate Hitem; auto. }
    destruct (MultiParameterConfiguration.max_sum_per_partition fs)
      as [maxs|].
    2:{ destruct (Hat 0%nat) as (? & ? & _ & ? & _); [simpl in *; lia|].
        discriminate. }
    exists maxs. split; [reflexivity|].
    assert (Hlen : length maxs = MultiParameterConfiguration.size ps).
    { apply H4. destruct maxs as [|M maxs]; [|reflexivity].
      destruct (Hat 0%nat) as (? & ? & _ & Hb & _); [simpl in *; lia|].
      apply getitem_nat_Ok in Hb. discriminate. }
    apply Forall2_same_length_lookup_2; [lia|].
    intros i a b Ha Hb.
    destruct (Hat i) as (a' & b' & Ha' & Hb' & Hab).
    { apply lookup_lt_Some in Ha. lia. }
    apply getitem_nat_Ok in Hb'.
    assert (Ea : Some a' = Some a) by (rewrite <- Ha, <- Ha'; reflexivity).
    assert (Eb : Some b' = Some b) by (rewrite <- Hb, <- Hb'; reflexivity).
    injection Ea as ->. injection Eb as ->. exact Hab.
Qed.

(** X9. For a constructed ParameterSet, [get_aggregate_params] runs to
    its normal end exactly when the shapes of min-sum and max-sum agree,
    and it has then yielded [n_configurations] tuples. *)
Theorem expansion_completes_iff_shapes_agree
    fs ps (options : UtilityAnalysisOptions) :
  MultiParameterConfiguration.__init__ fs = Ok ps ->
  UtilityAnalysisOptions.multi_param_configuration options = Some ps ->
  (shapes_agree fs ->
   exists items,
     get_aggregate_params options = (items, None) /\
     length items = n_configurations options) /\
  (forall items,
     get_aggregate_params options = (items, None) -> shapes_agree fs).
Proof.
  intros Hinit Hps.
  pose proof (materialize_Ok_iff_shapes_agree fs ps
                (UtilityAnalysisOptions.aggregate_params options) Hinit)
    as Hiff.
  unfold get_aggregate_params, n_configurations. rewrite Hps. split.
  - intros Hs.
    destruct (for_yield_all_Ok
                (fun i =>
                   MultiParameterConfiguration.get_aggregate_params ps
                     (UtilityAnalysisOptions.aggregate_params options) i)
                (range (MultiParameterConfiguration.size ps)))
      as (items & Hitems & Hlen).
    { intros k x Hx. apply range_lookup in Hx as [Hk ->].
      apply Hiff; assumption. }
    exists items. split; [exact Hitems|].
    rewrite Hlen. apply range_length.
  - intros items H. apply Hiff. intros i Hi.
    apply for_yield_cases in H as [Hk Hlen].
    rewrite range_length in Hlen.
    destruct (lookup_lt_is_Some_2 items i) as [item Hitem]; [lia|].
    exists item. apply (Hk i (Z.of_nat i) item); [|exact Hitem].
    apply range_lookup. auto.
Qed.

Lemma materialized_strategy ps params (i : nat) configuration bounds :
  MultiParameterConfiguration.get_aggregate_params ps params (Z.of_nat i)
    = Ok (configuration, bounds) ->
  pipeline_dp.partition_selection_strategy configuration =
    default (pipeline_dp.partition_selection_strategy params)
      (MultiParameterConfiguration.partition_selection_strategy ps
         ≫= (fun l => l !! i)).
Proof.
  intros H. unfold MultiParameterConfiguration.get_aggregate_params in H.
  do 4 eval_override H.
  all: assert (Hc : exists b, Ok (configuration, bounds) = Ok b /\
                     fst b = configuration) by (eexists; split; reflexivity).
  all: rewrite <- H in Hc; clear H; destruct Hc as (b & H & <-).
  all: repeat match type of H with
              | (if ?c then _ else _) = _ => destruct c
              | bind ?r _ = _ => destruct r; cbn [bind] in H
              end; try discriminate H; injection H as <-.
  all: cbn [fst pipeline_dp.partition_selection_strategy
            pipeline_dp.set_max_partitions_contributed
            pipeline_dp.set_max_contributions_per_partition
            pipeline_dp.set_noise_kind
            pipeline_dp.set_partition_selection_strategy].
  all: try (rewrite (supplied_value _ i _ _ Ex2); reflexivity).
  all: try (rewrite (supplied_value _ i _ _ Ex1); reflexivity).
  all: try (rewrite (supplied_value _ i _ _ Ex0); reflexivity).
  all: try (rewrite (supplied_value _ i _ _ Ex); reflexivity).
  all: match goal with
       | E : truthy (MultiParameterConfiguration.partition_selection_strategy
                       _) = false |- _ =>
           rewrite (unsupplied_value _ i _ E); reflexivity
       end.
Qed.

(** X10. When the expansion of a constructed ParameterSet runs to its end
    and the strategy sequence is not an empty list,
    [get_partition_selection_strategy] returns, index by index, the
    selection strategies of the configurations that
    [get_aggregate_params] yields. *)
Theorem strategies_are_those_of_the_configurations
    fs ps (options : UtilityAnalysisOptions) items :
  MultiParameterConfiguration.__init__ fs = Ok ps ->
  MultiParameterConfiguration.partition_selection_strategy fs <> Some [] ->
  UtilityAnalysisOptions.multi_param_configuration options = Some ps ->
  get_aggregate_params options = (items, None) ->
  get_partition_selection_strategy options =
    (fun item => pipeline_dp.partition_selection_strategy item.1) <$> items.
Proof.
  intros Hinit Hne Hps Hitems.
  destruct (one_strategy_per_configuration fs ps options Hinit Hne Hps)
    as [Hlen Hform].
  pose proof (init_Ok _ _ Hinit) as [Hfs Hpost].
  destruct (constructed_fields _ _ Hpost) as (_ & _ & _ & _ & _ & H6).
  unfold get_aggregate_params in Hitems. rewrite Hps in Hitems.
  apply for_yield_cases in Hitems as [Hk Hend].
  rewrite range_length in Hend.
  unfold n_configurations in *. rewrite Hps in *.
  apply list_eq. intros k. rewrite list_lookup_fmap.
  destruct (decide (k < MultiParameterConfiguration.size ps)%nat) as [Hlt|Hge].
  2:{ rewrite (lookup_ge_None_2 items) by lia.
      apply lookup_ge_None_2. lia. }
  destruct (lookup_lt_is_Some_2 items k) as [[configuration bounds] Hitem];
    [lia|].
  rewrite Hitem. simpl.
  assert (Hrun : MultiParameterConfiguration.get_aggregate_params ps
                   (UtilityAnalysisOptions.aggregate_params options)
                   (Z.of_nat k) = Ok (configuration, bounds)).
  { apply (Hk k (Z.of_nat k)); [|exact Hitem]. apply range_lookup. auto. }
  rewrite (materialized_strategy _ _ _ _ _ Hrun), Hform, Hfs.
  destruct (MultiParameterConfiguration.partition_selection_strategy fs)
    as [[|x l]|]; [congruence| |]; simpl.
  - pose proof (H6 _ eq_refl) as Hl.
    destruct (lookup_lt_is_Some_2 (x :: l) k) as [y Hy]; [lia|].
    rewrite Hy. reflexivity.
  - apply lookup_replicate_2. exact Hlt.
Qed.

Lemma subscript_from_the_end {A : Type} (v : option (list A)) (k i : nat) :
  truthy v = true ->
  (forall n, nonempty_length v = Some n -> n = k) ->
  (i < k)%nat ->
  subscript v (Z.of_nat i - Z.of_nat k) = subscript v (Z.of_nat i).
Proof.
  intros Ht Hk Hi. destruct (nonempty_length_truthy v Ht) as (l & -> & Hl).
  specialize (Hk _ Hl). subst k. unfold subscript, getitem.
  destruct (Z.ltb_spec (Z.of_nat i - Z.of_nat (length l)) 0) as [_|?]; [|lia].
  destruct (Z.ltb_spec (Z.of_nat i) 0) as [?|_]; [lia|].
  replace (Z.of_nat i - Z.of_nat (length l) + Z.of_nat (length l))
    with (Z.of_nat i) by lia.
  reflexivity.
Qed.

(** X11. Indices count from the end when negative: on a constructed
    ParameterSet of size [N] whose min-sum and max-sum are each absent or
    non-empty, materializing [i - N] gives what materializing [i] gives,
    for every [i] from 0 to [N - 1]. *)
Theorem negative_index_counts_from_the_end fs ps params (i : nat) :
  MultiParameterConfiguration.__init__ fs = Ok ps ->
  sum_bounds_absent_or_nonempty fs ->
  (i < MultiParameterConfiguration.size ps)%nat ->
  MultiParameterConfiguration.get_aggregate_params ps params
    (Z.of_nat i - Z.of_nat (MultiParameterConfiguration.size ps)) =
  MultiParameterConfiguration.get_aggregate_params ps params (Z.of_nat i).
Proof.
  intros Hinit Hsum Hi. apply init_Ok in Hinit as [Hfs Hpost].
  pose proof (truthy_max_sum _ _ Hpost Hsum) as Hmax.
  destruct (constructed_fields _ _ Hpost) as (H1 & H2 & H3 & H4 & H5 & H6).
  unfold MultiParameterConfiguration.get_aggregate_params. rewrite Hfs.
  set (k := MultiParameterConfiguration.size ps) in *.
  repeat match goal with
         | |- context [if truthy ?v then _ else _] =>
             let E := fresh "E" in
             destruct (truthy v) eqn:E;
             [rewrite (subscript_from_the_end v k i E ltac:(assumption) Hi)|]
         end.
  all: try rewrite (subscript_from_the_end _ k i Hmax H4 Hi).
  all: reflexivity.
Qed.

(** ** Empty lists given for max-sum *)

(** X12. Min-sum rows next to an empty max-sum list are rejected: when
    min-sum is a non-empty sequence of sequences and max-sum is an empty
    list, construction raises [ValueError], whatever the other
    sequences. *)
Theorem rows_without_max_sum_are_rejected fs m mins :
  MultiParameterConfiguration.min_sum_per_partition fs = Some (m :: mins) ->
  MultiParameterConfiguration.all_elements_are_lists (m :: mins) = true ->
  MultiParameterConfiguration.max_sum_per_partition fs = Some [] ->
  MultiParameterConfiguration.__init__ fs = Raise ValueError.
Proof.
  intros Hmin Em Hmax.
  unfold MultiParameterConfiguration.__init__,
    MultiParameterConfiguration.__post_init__. cbv zeta.
  match goal with |- context [py_min ?l] => set (sizes := l) end.
  destruct sizes as [|n l]; [reflexivity|].
  cbn [py_min py_max bind].
  destruct (negb _); [reflexivity|].
  rewrite getitem_head, Hmin, Hmax.
  cbn [bind is_None eqb negb truthy iter]. rewrite Em.
  destruct (common_value_len_all_lists _ _ Em) as (c1 & l1 & _ & ->).
  reflexivity.
Qed.

(** X13. A scalar min-sum next to an empty max-sum list is accepted, but
    the object cannot be materialized: whenever construction succeeds
    with a non-empty min-sum and an empty max-sum list, materializing
    raises [IndexError] at every index. *)
Theorem empty_max_sum_raises_IndexError_at_every_index
    fs ps params (i : Z) m mins :
  MultiParameterConfiguration.__init__ fs = Ok ps ->
  MultiParameterConfiguration.min_sum_per_partition fs = Some (m :: mins) ->
  MultiParameterConfiguration.max_sum_per_partition fs = Some [] ->
  MultiParameterConfiguration.get_aggregate_params ps params i
    = Raise IndexError.
Proof.
  intros Hinit Hmin Hmax.
  pose proof (init_Ok _ _ Hinit) as [Hfs Hpost].
  destruct (constructed_fields _ _ Hpost) as (H1 & H2 & H3 & H4 & H5 & H6).
  set (k := MultiParameterConfiguration.size ps) in *.
  assert (Hdec : in_range k i \/ ~ in_range k i) by (unfold in_range; lia).
  assert (Hlen : length (m :: mins) = k)
    by (apply H3; rewrite Hmin; reflexivity).
  destruct Hdec as [Hin|Hout].
  - destruct (materialize_in_range fs ps params i Hinit Hin) as (q & ->).
    rewrite Hmin, Hmax. cbn [truthy subscript].
    destruct (getitem_in_range (m :: mins) i) as [a ->];
      [rewrite Hlen; exact Hin|].
    cbn [bind]. rewrite (getitem_out_of_range (@nil SumBound) i);
      [reflexivity|]. unfold in_range. simpl. lia.
  - unfold MultiParameterConfiguration.get_aggregate_params. rewrite Hfs.
    do 4 override_step k i.
    all: rewrite Hmin; cbn [truthy subscript].
    all: rewrite (getitem_out_of_range (m :: mins) i);
      [reflexivity|rewrite Hlen; exact Hout].
Qed.

(** C4 (defect). The constructor accepts min-sum [1] next to an empty
    max-sum list.  Exactly one of the two holds values, and the attributes
    that are not [None] have lengths 1 and 0, so construction is to raise;
    instead it returns an object of size 1, and materializing that object
    raises [IndexError] already at index 0.  The both-or-neither test is
    made with [is None], the lengths are collected with [if value]. *)
Theorem scalar_min_sum_without_max_sum_is_accepted params :
  exists ps,
    MultiParameterConfiguration.__init__ example_scalar_without_max = Ok ps /\
    MultiParameterConfiguration.size ps = 1%nat /\
    is_set NonEmpty
      (MultiParameterConfiguration.min_sum_per_partition ps) = true /\
    is_set NonEmpty
      (MultiParameterConfiguration.max_sum_per_partition ps) = false /\
    length <$> MultiParameterConfiguration.min_sum_per_partition ps
      = Some 1%nat /\
    length <$> MultiParameterConfiguration.max_sum_per_partition ps
      = Some 0%nat /\
    claimed_invalid NonEmpty
      (@example_scalar_without_max NoiseKind PartitionSelectionStrategy)
      = true /\
    MultiParameterConfiguration.get_aggregate_params ps params 0
      = Raise IndexError.
Proof.
  eexists. split; [reflexivity|]. repeat split; reflexivity.
Qed.
End Properties.

(** ** The partition sampling probability *)

Lemma SFcompare_antisym (x y : spec_float) (c : comparison) :
  SFcompare x y = Some c -> SFcompare y x = Some (CompOpp c).
Proof.
  destruct x as [s1|s1| |s1 m1 e1], y as [s2|s2| |s2 m2 e2]; simpl;
    try discriminate; intros [= <-]; try (destruct s1, s2; reflexivity);
    try (destruct s1; reflexivity); try (destruct s2; reflexivity).
  f_equal.
  pose proof (Pos.compare_cont_antisym m1 m2 Eq) as Hm. simpl in Hm.
  destruct s1, s2; try reflexivity;
    rewrite (Z.compare_antisym e1 e2);
    destruct (e1 ?= e2)%Z; simpl; try reflexivity;
    rewrite <- Hm; destruct (Pos.compare_cont Eq m1 m2); reflexivity.
Qed.

Lemma float_ltb_flip (x y : float) :
  (x <? y)%float = true ->
  (y <=? x)%float = false /\ (y <? x)%float = false.
Proof.
  rewrite !FloatAxioms.ltb_spec, FloatAxioms.leb_spec. unfold SFltb, SFleb.
  destruct (SFcompare (Prim2SF x) (Prim2SF y)) as [[]|] eqn:E;
    try discriminate.
  rewrite (SFcompare_antisym _ _ _ E). simpl. auto.
Qed.

Lemma float_leb_of_eqb_or_ltb (x y : float) :
  (x =? y)%float = true \/ (x <? y)%float = true -> (x <=? y)%float = true.
Proof.
  rewrite FloatAxioms.eqb_spec, FloatAxioms.ltb_spec, FloatAxioms.leb_spec.
  unfold SFeqb, SFltb, SFleb.
  destruct (SFcompare (Prim2SF x) (Prim2SF y)) as [[]|];
    intros [?|?]; congruence.
Qed.

Lemma Prim2SF_one : Prim2SF 1 = S754_finite false 4503599627370496 (-52).
Proof. vm_compute. reflexivity. Qed.

Lemma Prim2SF_zero : Prim2SF 0 = S754_zero false.
Proof. vm_compute. reflexivity. Qed.

Lemma float_eqb_one (x : float) :
  (x =? 1)%float = true ->
  (x <=? 0)%float = false /\ (1 <? x)%float = false.
Proof.
  rewrite FloatAxioms.eqb_spec, FloatAxioms.ltb_spec, FloatAxioms.leb_spec.
  unfold SFeqb, SFltb, SFleb. rewrite Prim2SF_one, Prim2SF_zero.
  destruct (SFcompare (Prim2SF x) _) as [[]|] eqn:E at 1;
    try discriminate.
  intros _. rewrite (SFcompare_antisym _ _ _ E). split; [|reflexivity].
  destruct (Prim2SF x) as [s|s| |s m e]; cbn [SFcompare] in *;
    try discriminate.
  - destruct s; discriminate.
  - destruct s; [discriminate|reflexivity].
Qed.

Section SamplingProbability.
Context {P M : Type}.
Variable validate_epsilon_delta : float -> float -> string -> result unit.

(** C10. Construction of an AnalysisOptions fails when the partition
    sampling probability is 0, negative or greater than 1; when the
    validator accepts epsilon and delta, it succeeds for a probability
    equal to 1 or strictly between 0 and 1. *)
Theorem partitions_sampling_prob_must_be_in_0_1
    (self : UtilityAnalysisOptions.UtilityAnalysisOptions P M) :
  let prob := UtilityAnalysisOptions.partitions_sampling_prob self in
  (((prob =? 0)%float = true \/ (prob <? 0)%float = true
    \/ (1 <? prob)%float = true) ->
   exists e,
     UtilityAnalysisOptions.__init__ validate_epsilon_delta self = Raise e) /\
  (validate_epsilon_delta (UtilityAnalysisOptions.epsilon self)
     (UtilityAnalysisOptions.delta self) "UtilityAnalysisOptions" = Ok () ->
   ((prob =? 1)%float = true
    \/ ((0 <? prob)%float = true /\ (prob <? 1)%float = true)) ->
   UtilityAnalysisOptions.__init__ validate_epsilon_delta self = Ok self).
Proof.
  intros prob.
  unfold UtilityAnalysisOptions.__init__, UtilityAnalysisOptions.__post_init__.
  fold prob. split.
  - intros H.
    destruct (validate_epsilon_delta _ _ _) as [[]|e]; cbn [bind]; [|eauto].
    assert (Hb : ((prob <=? 0)%float || (1 <? prob)%float) = true).
    { destruct H as [H|[H|H]].
      - rewrite (float_leb_of_eqb_or_ltb prob 0) by tauto. reflexivity.
      - rewrite (float_leb_of_eqb_or_ltb prob 0) by tauto. reflexivity.
      - rewrite H. apply orb_true_r. }
    rewrite Hb. cbn [bind]. eauto.
  - intros -> H. cbn [bind].
    assert (Hb : ((prob <=? 0)%float || (1 <? prob)%float) = false).
    { destruct H as [H|[H0 H1]].
      - destruct (float_eqb_one prob H) as [-> ->]. reflexivity.
      - destruct (float_ltb_flip _ _ H0) as [-> _].
        destruct (float_ltb_flip _ _ H1) as [_ ->]. reflexivity. }
    rewrite Hb. reflexivity.
Qed.
End SamplingProbability.

Lemma SFcompare_None (x y : spec_float) :
  SFcompare x y = None -> x = S754_nan \/ y = S754_nan.
Proof.
  destruct x as [s1|s1| |s1 m1 e1], y as [s2|s2| |s2 m2 e2]; simpl;
    try discriminate; auto.
Qed.

Lemma SFcompare_refl (x : spec_float) (c : comparison) :
  SFcompare x x = Some c -> c = Eq.
Proof.
  destruct x as [s|s| |s m e]; simpl; try discriminate; intros [= <-].
  - reflexivity.
  - destruct s; reflexivity.
  - rewrite Z.compare_refl.
    pose proof (Pos.compare_cont_refl m Eq) as Hm.
    destruct s; rewrite Hm; reflexivity.
Qed.

(** The test [prob <= 0 or prob > 1] is false exactly for the floats in
    the interval (0, 1] and for NaN, the floats [p] with [p != p]. *)
Lemma float_interval_test (p : float) :
  ((p <=? 0)%float || (1 <? p)%float) = false <->
  ((0 <? p)%float = true /\ (p <=? 1)%float = true) \/ (p =? p)%float = false.
Proof.
  rewrite !FloatAxioms.leb_spec, !FloatAxioms.ltb_spec, FloatAxioms.eqb_spec.
  unfold SFleb, SFltb, SFeqb. rewrite Prim2SF_zero, Prim2SF_one.
  set (a := Prim2SF p). set (zero := S754_zero false).
  set (one := S754_finite false 4503599627370496 (-52)).
  destruct (SFcompare a a) as [caa|] eqn:Eaa.
  - assert (Hnan : a <> S754_nan) by (intros E; rewrite E in Eaa; discriminate).
    rewrite (SFcompare_refl _ _ Eaa).
    destruct (SFcompare a zero) as [c0|] eqn:E0.
    2:{ apply SFcompare_None in E0 as [?|?]; [contradiction|discriminate]. }
    destruct (SFcompare one a) as [c1|] eqn:E1.
    2:{ apply SFcompare_None in E1 as [?|?]; [discriminate|contradiction]. }
    rewrite (SFcompare_antisym _ _ _ E0), (SFcompare_antisym _ _ _ E1).
    destruct c0, c1; simpl; split; intros H; try discriminate;
      try (left; split; reflexivity);
      try reflexivity; destruct H as [[? ?]|?]; discriminate.
  - apply SFcompare_None in Eaa. assert (Ea : a = S754_nan) by tauto.
    rewrite Ea. simpl. split; auto.
Qed.

Section AcceptedProbabilities.
Context {P M : Type}.
Variable validate_epsilon_delta : float -> float -> string -> result unit.

(** X14. Construction of an AnalysisOptions succeeds exactly when the
    validator accepts epsilon and delta and the sampling probability is in
    the interval (0, 1] or is NaN: the test [prob <= 0 or prob > 1] lets a
    NaN through. *)
Theorem accepted_sampling_probabilities
    (self : UtilityAnalysisOptions.UtilityAnalysisOptions P M) :
  let prob := UtilityAnalysisOptions.partitions_sampling_prob self in
  UtilityAnalysisOptions.__init__ validate_epsilon_delta self = Ok self <->
  validate_epsilon_delta (UtilityAnalysisOptions.epsilon self)
    (UtilityAnalysisOptions.delta self) "UtilityAnalysisOptions" = Ok () /\
  (((0 <? prob)%float = true /\ (prob <=? 1)%float = true)
   \/ (prob =? prob)%float = false).
Proof.
  intros prob.
  unfold UtilityAnalysisOptions.__init__, UtilityAnalysisOptions.__post_init__.
  fold prob. rewrite <- float_interval_test.
  destruct (validate_epsilon_delta _ _ _) as [[]|e]; cbn [bind].
  - destruct ((prob <=? 0)%float || (1 <? prob)%float); cbn [bind];
      split; intros H; try discriminate; try tauto.
    destruct H as [_ H]. discriminate.
  - split; [discriminate|]. intros [H _]. discriminate.
Qed.
End AcceptedProbabilities.

(** ** The store *)

Section StoreProperties.
Context {NoiseKind PartitionSelectionStrategy Rest : Type}.
Abbreviation AggregateParams :=
  (pipeline_dp.AggregateParams NoiseKind PartitionSelectionStrategy Rest).
Abbreviation MultiParameterConfiguration :=
  (MultiParameterConfiguration.MultiParameterConfiguration
     NoiseKind PartitionSelectionStrategy).
Abbreviation object :=
  (Store.object NoiseKind PartitionSelectionStrategy Rest).
Abbreviation store := (gmap Store.ref object).
Implicit Types (s : store) (c : MultiParameterConfiguration).
Implicit Types (p q : AggregateParams) (self params r : Store.ref).

Lemma alloc_above s r :
  is_Some (s !! r) -> (r < Store.alloc s)%positive.
Proof.
  unfold Store.alloc. revert r.
  apply (map_fold_weak_ind
           (fun b (m : store) =>
              forall r, is_Some (m !! r) -> (r < b)%positive)).
  - intros r [x Hx]. rewrite lookup_empty in Hx. discriminate.
  - intros i x m b Hi IH r Hr.
    destruct (decide (i = r)) as [->|Hne].
    + lia.
    + rewrite lookup_insert_ne in Hr by exact Hne.
      specialize (IH r Hr). lia.
Qed.

(** [alloc] returns a reference that is not in use. *)
Lemma alloc_fresh s : s !! Store.alloc s = None.
Proof.
  destruct (s !! Store.alloc s) as [x|] eqn:E; [|reflexivity].
  pose proof (alloc_above s (Store.alloc s) (mk_is_Some _ _ E)). lia.
Qed.

Lemma mbind_attribute {A B : Type} self c s
    (get : MultiParameterConfiguration.fields
             NoiseKind PartitionSelectionStrategy -> A)
    (k : A -> Store.M B) :
  s !! self = Some (Store.MultiParameterConfigurationObject c) ->
  Store.mbind (Store.MultiParameterConfiguration.attribute self get) k s =
  k (get c) s.
Proof.
  intros H.
  cbv [Store.MultiParameterConfiguration.attribute Store.mbind
       Store.read_configuration Store.ret].
  rewrite H. reflexivity.
Qed.

Lemma mbind_lift {A B : Type} (x : result A) (k : A -> Store.M B) s :
  Store.mbind (Store.lift x) k s =
  match x with
  | Ok a => k a s
  | Raise e => Some (Raise e, s)
  end.
Proof. destruct x; reflexivity. Qed.

Lemma mbind_assoc {A B C : Type} (m : Store.M A) (k1 : A -> Store.M B)
    (k2 : B -> Store.M C) s :
  Store.mbind (Store.mbind m k1) k2 s =
  Store.mbind m (fun a => Store.mbind (k1 a) k2) s.
Proof.
  unfold Store.mbind. destruct (m s) as [[[a|e] s']|]; reflexivity.
Qed.

Lemma mbind_ret {A B : Type} (a : A) (k : A -> Store.M B) s :
  Store.mbind (Store.ret a) k s = k a s.
Proof. reflexivity. Qed.

Lemma mbind_setattr {B : Type} r q (set : AggregateParams -> AggregateParams)
    (k : unit -> Store.M B) s :
  s !! r = Some (Store.AggregateParamsObject q) ->
  Store.mbind (Store.setattr r set) k s =
  k () (<[r := Store.AggregateParamsObject (set q)]> s).
Proof.
  intros H. unfold Store.mbind, Store.setattr. rewrite H. reflexivity.
Qed.

Lemma mbind_read_params {B : Type} r q (k : AggregateParams -> Store.M B) s :
  s !! r = Some (Store.AggregateParamsObject q) ->
  Store.mbind (Store.read_params r) k s = k q s.
Proof.
  intros H. unfold Store.mbind, Store.read_params. rewrite H. reflexivity.
Qed.

Lemma mbind_copy_copy {B : Type} r q (k : Store.ref -> Store.M B) s :
  s !! r = Some (Store.AggregateParamsObject q) ->
  Store.mbind (Store.copy_copy r) k s =
  k (Store.alloc s) (<[Store.alloc s := Store.AggregateParamsObject q]> s).
Proof.
  intros H. unfold Store.mbind, Store.copy_copy. rewrite H. reflexivity.
Qed.

Lemma lookup_after_alloc s r (x y : object) :
  s !! r = Some x -> <[Store.alloc s := y]> s !! r = Some x.
Proof.
  intros H. rewrite lookup_insert_ne; [exact H|].
  intros Heq. rewrite <- Heq, alloc_fresh in H. discriminate.
Qed.

Ltac read_attribute Hself :=
  match goal with
  | |- context [Store.mbind (Store.MultiParameterConfiguration.attribute _ _)
                  _ (<[_ := ?y]> ?s0)] =>
      rewrite (mbind_attribute _ _ _ _ _ (lookup_after_alloc s0 _ _ y Hself));
      cbv beta
  end.

Ltac store_step Hself :=
  read_attribute Hself;
  match goal with
  | |- context [Store.mbind (if truthy ?v then _ else _)] =>
      destruct (truthy v);
      [ rewrite !mbind_assoc; read_attribute Hself;
        rewrite !mbind_assoc, mbind_lift;
        destruct (subscript v _) as [?x|?e]; cbn [bind];
        [ erewrite mbind_setattr by apply lookup_insert_eq;
          rewrite insert_insert_eq
        | eexists; split; [reflexivity|intros; discriminate] ]
      | rewrite mbind_ret ]
  end.

(** Materializing on the store allocates one object, the copy, assigns to
    it only, and returns what the function on values returns. *)
Lemma materialize_on_store self params (i : Z) s c p :
  s !! self = Some (Store.MultiParameterConfigurationObject c) ->
  s !! params = Some (Store.AggregateParamsObject p) ->
  exists q,
    Store.MultiParameterConfiguration.get_aggregate_params self params i s =
      Some (match MultiParameterConfiguration.get_aggregate_params c p i with
            | Ok (_, bounds) => Ok (Store.alloc s, bounds)
            | Raise e => Raise e
            end,
            <[Store.alloc s := Store.AggregateParamsObject q]> s) /\
    (forall p' bounds,
       MultiParameterConfiguration.get_aggregate_params c p i
         = Ok (p', bounds) -> q = p').
Proof.
  intros Hself Hparams.
  unfold Store.MultiParameterConfiguration.get_aggregate_params,
    MultiParameterConfiguration.get_aggregate_params.
  rewrite (mbind_copy_copy _ _ _ _ Hparams).
  do 4 store_step Hself.
  all: read_attribute Hself.
  all: destruct (truthy (MultiParameterConfiguration.min_sum_per_partition c)).
  all: try (erewrite mbind_read_params by apply lookup_insert_eq).
  all: try (read_attribute Hself; rewrite mbind_lift;
            destruct (subscript _ i) as [min_sum|e]; cbn [bind];
            [ read_attribute Hself; rewrite mbind_lift;
              destruct (subscript _ i) as [max_sum|e]; cbn [bind];
              [ destruct min_sum as [a|xs]; cbn [isinstance_Sequence];
                [|rewrite mbind_lift; destruct max_sum as [b|ys]; cbn [zip]]
              |]
            |]).
  all: unfold Store.ret; eexists; (split; [reflexivity|]).
  all: intros p' bounds Heq; cbn in Heq; try discriminate.
  all: injection Heq as <- _; reflexivity.
Qed.

(** Running the loop of [get_aggregate_params] on the store: objects
    already there are unchanged, every yielded reference is new and no two
    are the same, and the values yielded are those of the function on
    values. *)
Lemma for_yield_on_store (xs : list Z) : forall s self params c p,
  s !! self = Some (Store.MultiParameterConfigurationObject c) ->
  s !! params = Some (Store.AggregateParamsObject p) ->
  let V :=
    for_yield
      (fun i => MultiParameterConfiguration.get_aggregate_params c p i) xs in
  exists items s',
    Store.for_yield
      (fun i =>
         Store.MultiParameterConfiguration.get_aggregate_params self params i)
      xs s = Some ((items, V.2), s') /\
    s ⊆ s' /\
    Forall (fun item => s !! item.1 = None) items /\
    NoDup (fst <$> items) /\
    values_in s' items = (fun v => (Some v.1, v.2)) <$> V.1.
Proof.
  induction xs as [|x xs IH]; intros s self params c p Hself Hparams; simpl.
  { exists [], s. repeat split; try reflexivity; constructor. }
  destruct (materialize_on_store self params x s c p Hself Hparams)
    as (q & Hrun & Hq).
  rewrite Hrun.
  pose proof (insert_subseteq s (Store.alloc s)
                (Store.AggregateParamsObject q) (alloc_fresh s)) as Hsub.
  destruct (MultiParameterConfiguration.get_aggregate_params c p x)
    as [[p' bounds]|e].
  2:{ exists [], (<[Store.alloc s := Store.AggregateParamsObject q]> s).
      repeat split; try reflexivity; try constructor. exact Hsub. }
  rewrite (Hq p' bounds eq_refl) in *. clear Hq Hrun.
  set (s1 := <[Store.alloc s := Store.AggregateParamsObject p']> s) in *.
  destruct (IH s1 self params c p
              (lookup_after_alloc _ _ _ _ Hself)
              (lookup_after_alloc _ _ _ _ Hparams))
    as (items & s' & Hrun & Hsub' & Hnew & Hdup & Hval).
  rewrite Hrun.
  destruct (for_yield
              (fun i => MultiParameterConfiguration.get_aggregate_params c p i)
              xs) as [ys r].
  exists ((Store.alloc s, bounds) :: items), s'. simpl in *.
  split; [reflexivity|]. split; [etrans; eassumption|].
  assert (Hr : s1 !! Store.alloc s = Some (Store.AggregateParamsObject p'))
    by apply lookup_insert_eq.
  split; [|split].
  - constructor; [apply alloc_fresh|].
    eapply Forall_impl; [exact Hnew|]. intros item Hitem. simpl in *.
    eapply lookup_weaken_None; eassumption.
  - constructor; [|exact Hdup].
    intros Hin. apply list_elem_of_fmap in Hin as (item & Heq & Hin).
    rewrite Forall_forall in Hnew. specialize (Hnew item Hin).
    simpl in Hnew. rewrite <- Heq in Hnew. congruence.
  - unfold values_in in *. simpl. rewrite Hval. f_equal.
    unfold configuration_at.
    rewrite (lookup_weaken _ _ _ _ Hr Hsub'). reflexivity.
Qed.

Lemma configuration_at_weaken s s' r p :
  configuration_at s r = Some p -> s ⊆ s' -> configuration_at s' r = Some p.
Proof.
  unfold configuration_at. intros H Hsub.
  destruct (s !! r) as [[q|c]|] eqn:E; try discriminate.
  rewrite (lookup_weaken _ _ _ _ E Hsub). exact H.
Qed.

Lemma values_in_weaken {B : Type} s s' (items : list (Store.ref * B))
    (vs : list (AggregateParams * B)) :
  values_in s items = (fun v => (Some v.1, v.2)) <$> vs ->
  s ⊆ s' ->
  values_in s' items = (fun v => (Some v.1, v.2)) <$> vs.
Proof.
  intros H Hsub. revert vs H.
  induction items as [|[r b] items IH]; intros [|[v b'] vs] H;
    try discriminate; [reflexivity|].
  change (values_in s ((r, b) :: items))
    with ((configuration_at s r, b) :: values_in s items) in H.
  change (values_in s' ((r, b) :: items))
    with ((configuration_at s' r, b) :: values_in s' items).
  rewrite fmap_cons in *. injection H as Hr Hb Hrest.
  rewrite (configuration_at_weaken _ _ _ _ Hr Hsub), Hb, (IH _ Hrest).
  reflexivity.
Qed.

Lemma options_in_weaken s s' options p
    (cfg : option MultiParameterConfiguration) :
  options_in s options p cfg -> s ⊆ s' -> options_in s' options p cfg.
Proof.
  unfold options_in. intros [Hp Hc] Hsub.
  split; [eapply lookup_weaken; eassumption|].
  destruct (UtilityAnalysisOptions.multi_param_configuration options),
    cfg; try exact Hc.
  eapply lookup_weaken; eassumption.
Qed.

(** [get_aggregate_params] on the store yields, by value, what it yields
    on values, and changes no object of the store it starts from. *)
Lemma get_aggregate_params_on_store
    (options : UtilityAnalysisOptions.UtilityAnalysisOptions Store.ref Store.ref)
    s p (cfg : option MultiParameterConfiguration) :
  options_in s options p cfg ->
  let V := get_aggregate_params (options_value options p cfg) in
  exists items s',
    Store.get_aggregate_params options s = Some ((items, V.2), s') /\
    s ⊆ s' /\
    values_in s' items = (fun v => (Some v.1, v.2)) <$> V.1 /\
    match UtilityAnalysisOptions.multi_param_configuration options with
    | Some _ =>
        Forall (fun item => s !! item.1 = None) items /\
        NoDup (fst <$> items)
    | None =>
        fst <$> items = [UtilityAnalysisOptions.aggregate_params options] /\
        s' = s
    end.
Proof.
  unfold options_in, Store.get_aggregate_params, get_aggregate_params.
  intros [Hp Hc]. simpl.
  destruct (UtilityAnalysisOptions.multi_param_configuration options)
    as [m|], cfg as [c|]; try contradiction.
  - unfold Store.read_configuration. rewrite Hc.
    destruct (for_yield_on_store
                (range (MultiParameterConfiguration.size c)) s m _ c p Hc Hp)
      as (items & s' & Hrun & Hsub & Hnew & Hdup & Hval).
    exists items, s'. auto.
  - unfold Store.read_params. rewrite Hp. eexists _, s.
    split; [reflexivity|]. split; [reflexivity|].
    unfold values_in, configuration_at. simpl. rewrite Hp. auto.
Qed.

(** C8 (amended). On valid options the expansion functions leave every
    object of the store, the baseline and the ParameterSet among them, as
    it was; with a ParameterSet each yielded configuration is a newly
    allocated object, different from every object that existed before and
    from the configurations yielded for the other indices; without one,
    the single configuration yielded is the baseline object itself. *)
Theorem expansion_keeps_objects_and_copies_per_index
    (options : UtilityAnalysisOptions.UtilityAnalysisOptions Store.ref Store.ref)
    s p (cfg : option MultiParameterConfiguration) :
  options_in s options p cfg ->
  (exists items ending s',
     Store.get_aggregate_params options s = Some ((items, ending), s') /\
     s ⊆ s' /\
     match UtilityAnalysisOptions.multi_param_configuration options with
     | Some _ =>
         Forall (fun item => s !! item.1 = None) items /\
         NoDup (fst <$> items)
     | None =>
         fst <$> items = [UtilityAnalysisOptions.aggregate_params options] /\
         s' = s
     end) /\
  (exists strategies,
     Store.get_partition_selection_strategy options s
       = Some (Ok strategies, s)) /\
  (exists n, Store.n_configurations options s = Some (Ok n, s)).
Proof.
  intros H. split; [|split].
  - destruct (get_aggregate_params_on_store options s p cfg H)
      as (items & s' & Hrun & Hsub & _ & Hnew).
    eexists items, _, s'. eauto.
  - destruct H as [Hp Hc].
    unfold Store.get_partition_selection_strategy.
    destruct (UtilityAnalysisOptions.multi_param_configuration options)
      as [m|], cfg as [c|]; try contradiction;
      cbv [Store.mbind Store.read_configuration Store.read_params Store.ret].
    + rewrite Hc.
      destruct (MultiParameterConfiguration.partition_selection_strategy c);
        [eauto|]. rewrite Hc, Hp. eauto.
    + rewrite Hp. eauto.
  - destruct H as [Hp Hc]. unfold Store.n_configurations.
    destruct (UtilityAnalysisOptions.multi_param_configuration options)
      as [m|], cfg as [c|]; try contradiction;
      cbv [Store.mbind Store.read_configuration Store.ret]; [|eauto].
    rewrite Hc. eauto.
Qed.

(** C9. Two calls of [get_aggregate_params] on the same valid options, one
    after the other, end the same way and yield sequences of the same
    length whose tuples are equal by value, index by index: the same bound
    pairs and configurations with the same attribute values. *)
Theorem repeated_expansion_is_equal_by_value
    (options : UtilityAnalysisOptions.UtilityAnalysisOptions Store.ref Store.ref)
    s p (cfg : option MultiParameterConfiguration) :
  options_in s options p cfg ->
  exists items1 ending1 s1 items2 ending2 s2,
    Store.get_aggregate_params options s = Some ((items1, ending1), s1) /\
    Store.get_aggregate_params options s1 = Some ((items2, ending2), s2) /\
    ending1 = ending2 /\
    length items1 = length items2 /\
    values_in s2 items1 = values_in s2 items2 /\
    Forall (fun v => is_Some v.1) (values_in s2 items1).
Proof.
  intros H.
  destruct (get_aggregate_params_on_store options s p cfg H)
    as (items1 & s1 & Hrun1 & Hsub1 & Hval1 & _).
  destruct (get_aggregate_params_on_store options s1 p cfg
              (options_in_weaken _ _ _ _ _ H Hsub1))
    as (items2 & s2 & Hrun2 & Hsub2 & Hval2 & _).
  pose proof (values_in_weaken _ _ _ _ Hval1 Hsub2) as Hval1'.
  eexists items1, _, s1, items2, _, s2.
  split; [exact Hrun1|]. split; [exact Hrun2|]. split; [reflexivity|].
  split; [|split].
  - apply (f_equal length) in Hval1', Hval2.
    unfold values_in in *. rewrite !length_fmap in *. congruence.
  - congruence.
  - rewrite Hval1'. apply Forall_fmap, Forall_forall. intros v _. simpl. eauto.
Qed.

(** X15. On the store, materializing never assigns to the configuration
    it is given, nor to any other object there: it allocates exactly one
    object, the copy, and assigns to it only, also when it raises.  What
    it returns is the new reference, whose object has the attribute values
    that the function on values computes, and the same bound pairs. *)
Theorem materialize_assigns_to_its_copy_only self params (i : Z) s c p :
  s !! self = Some (Store.MultiParameterConfigurationObject c) ->
  s !! params = Some (Store.AggregateParamsObject p) ->
  exists outcome s',
    Store.MultiParameterConfiguration.get_aggregate_params self params i s
      = Some (outcome, s') /\
    (s ⊆ s') /\
    (Store.alloc s ∉ dom s) /\
    (dom s' = dom s ∪ {[Store.alloc s]}) /\
    match outcome with
    | Ok (r, bounds) =>
        r = Store.alloc s /\
        exists configuration,
          s' !! r = Some (Store.AggregateParamsObject configuration) /\
          MultiParameterConfiguration.get_aggregate_params c p i
            = Ok (configuration, bounds)
    | Raise e =>
        MultiParameterConfiguration.get_aggregate_params c p i = Raise e
    end.
Proof.
  intros Hself Hparams.
  destruct (materialize_on_store self params i s c p Hself Hparams)
    as (q & Hrun & Hq).
  eexists _, _. split; [exact Hrun|].
  split; [apply insert_subseteq, alloc_fresh|].
  split; [apply not_elem_of_dom, alloc_fresh|].
  split; [rewrite dom_insert_L; apply (comm_L (∪))|].
  destruct (MultiParameterConfiguration.get_aggregate_params c p i)
    as [[p' bounds]|e]; [|reflexivity].
  split; [reflexivity|]. exists p'.
  rewrite (Hq p' bounds eq_refl), lookup_insert_eq. auto.
Qed.

End StoreProperties.

(** * Instances *)

(** The two inputs on which construction parts from the four reasons of
    C4, one for each reading of "set".  With min-sum [[1, 2]] and an empty
    max-sum, both set in that neither is [None], none of the four reasons
    holds, yet construction raises [ValueError], from [min] of an empty
    list.  If an empty sequence is read as not set, then with min-sum [1]
    and an empty max-sum exactly one of the two is set, yet construction
    succeeds. *)
Lemma construction_differs_on_empty_max_sum :
  (MultiParameterConfiguration.__init__
     (@example_rows_without_max unit unit) = Raise ValueError /\
   claimed_invalid NotNone (@example_rows_without_max unit unit) = false) /\
  ((exists ps,
      MultiParameterConfiguration.__init__
        (@example_scalar_without_max unit unit) = Ok ps) /\
   claimed_invalid NonEmpty (@example_scalar_without_max unit unit) = true).
Proof.
  split; split; try reflexivity. eexists. reflexivity.
Qed.

(** C7 (counterexample). On the ParameterSet of size 2 built from
    [example_A], index -1 is outside [0 <= i < 2], yet materializing it
    raises nothing: it returns the last configuration. *)
Lemma materialize_accepts_negative_index :
  exists ps,
    MultiParameterConfiguration.__init__ (@example_A unit unit) = Ok ps /\
    MultiParameterConfiguration.size ps = 2%nat /\
    ~ (0 <= -1 < Z.of_nat (MultiParameterConfiguration.size ps)) /\
    MultiParameterConfiguration.get_aggregate_params ps example_baseline (-1)
      = Ok (pipeline_dp.set_max_contributions_per_partition 11
              (pipeline_dp.set_max_partitions_contributed 2 example_baseline),
            [(Scalar 0, Scalar 1)]).
Proof.
  eexists. split; [reflexivity|]. split; [reflexivity|].
  split; [simpl; lia|reflexivity].
Qed.

(** C8 (counterexample). Without a ParameterSet the configuration yielded
    is no copy: it is the reference of the baseline, which the store held
    before the call, and an assignment through it is read back through
    the options' baseline. *)
Lemma without_parameter_set_the_baseline_object_is_yielded :
  let options : UtilityAnalysisOptions.UtilityAnalysisOptions
                  Store.ref Store.ref :=
    example_options 1%positive None in
  exists yielded,
    Store.get_aggregate_params options example_baseline_store
      = Some (([(yielded, [(Scalar 0, Scalar 1)])], None),
              example_baseline_store) /\
    yielded = UtilityAnalysisOptions.aggregate_params options /\
    example_baseline_store !! yielded
      = Some (Store.AggregateParamsObject example_baseline) /\
    exists s',
      Store.mbind
        (Store.setattr yielded (pipeline_dp.set_max_partitions_contributed 99))
        (fun _ =>
           Store.read_params (UtilityAnalysisOptions.aggregate_params options))
        example_baseline_store
      = Some (Ok (pipeline_dp.set_max_partitions_contributed 99
                    example_baseline), s').
Proof.
  eexists. split; [vm_compute; reflexivity|]. split; [reflexivity|].
  split; [vm_compute; reflexivity|]. eexists. vm_compute. reflexivity.
Qed.

Lemma no_parameter_set_yields_the_baseline_witness :
  UtilityAnalysisOptions.multi_param_configuration
    (example_options example_baseline
       (@None (MultiParameterConfiguration.MultiParameterConfiguration
                 unit unit))) = None /\
  get_aggregate_params
    (example_options example_baseline
       (@None (MultiParameterConfiguration.MultiParameterConfiguration
                 unit unit))) =
    ([(example_baseline, [(Scalar 0, Scalar 1)])], None).
Proof.
  split; [reflexivity|].
  apply (no_parameter_set_yields_the_baseline
           (example_options example_baseline None)).
  reflexivity.
Defined.

Lemma multi_column_bounds_are_paired_by_position_witness :
  exists configuration,
    MultiParameterConfiguration.get_aggregate_params
      {| MultiParameterConfiguration.attributes := @example_B unit unit;
         MultiParameterConfiguration._size := 2 |}
      example_baseline (Z.of_nat 1)
    = Ok (configuration, [(Scalar 3, Scalar 7); (Scalar 4, Scalar 8)]).
Proof.
  apply (proj2 (@multi_column_bounds_are_paired_by_position unit unit unit)
           example_B _ example_baseline 1%nat
           [Columns [1; 2]%float; Columns [3; 4]%float]
           [Columns [5; 6]%float; Columns [7; 8]%float]
           [3; 4]%float [7; 8]%float);
    reflexivity.
Defined.

Lemma construction_fails_exactly_when_claimed_witness :
  sum_bounds_absent_or_nonempty (@example_A unit unit) /\
  exists ps,
    MultiParameterConfiguration.__init__ (@example_A unit unit) = Ok ps /\
    MultiParameterConfiguration.attributes ps = example_A.
Proof.
  assert (H : sum_bounds_absent_or_nonempty (@example_A unit unit))
    by (split; discriminate).
  split; [exact H|].
  exact (construction_fails_exactly_when_claimed NotNone example_A H).
Defined.

Lemma size_is_common_length_witness :
  MultiParameterConfiguration.__init__ (@example_A unit unit)
    = Ok example_A_object /\
  (forall n, n ∈ nonempty_lengths (@example_A unit unit) -> n = 2%nat) /\
  MultiParameterConfiguration.size example_A_object = 2%nat.
Proof.
  assert (H : forall n, n ∈ nonempty_lengths (@example_A unit unit) ->
                        n = 2%nat).
  { apply Forall_forall. vm_compute. repeat constructor. }
  split; [reflexivity|]. split; [exact H|].
  exact (proj1 (@size_is_common_length unit unit unit
                  example_A example_A_object 2%nat eq_refl H)).
Defined.

Lemma materialize_IndexError_iff_out_of_range_witness :
  MultiParameterConfiguration.__init__ (@example_A unit unit)
    = Ok example_A_object /\
  sum_bounds_absent_or_nonempty (@example_A unit unit) /\
  (MultiParameterConfiguration.get_aggregate_params
     example_A_object example_baseline 5 = Raise IndexError <->
   ~ in_range (MultiParameterConfiguration.size example_A_object) 5).
Proof.
  assert (H : sum_bounds_absent_or_nonempty (@example_A unit unit))
    by (split; discriminate).
  split; [reflexivity|]. split; [exact H|].
  exact (proj1 (materialize_IndexError_iff_out_of_range
                  example_A example_A_object example_baseline 5 eq_refl H)).
Defined.

Lemma expansion_keeps_objects_and_copies_per_index_witness :
  options_in example_store (example_options 1%positive (Some 2%positive))
    example_baseline (Some example_A_object) /\
  exists items ending s',
    Store.get_aggregate_params
      (example_options 1%positive (Some 2%positive)) example_store
      = Some ((items, ending), s') /\
    example_store ⊆ s' /\
    Forall (fun item => example_store !! item.1 = None) items /\
    NoDup (fst <$> items).
Proof.
  assert (H : options_in example_store
                (example_options 1%positive (Some 2%positive))
                example_baseline (Some example_A_object))
    by (split; vm_compute; reflexivity).
  split; [exact H|].
  exact (proj1 (expansion_keeps_objects_and_copies_per_index
                  (example_options 1%positive (Some 2%positive))
                  example_store example_baseline (Some example_A_object) H)).
Defined.

Lemma repeated_expansion_is_equal_by_value_witness :
  options_in example_store (example_options 1%positive (Some 2%positive))
    example_baseline (Some example_A_object) /\
  exists items1 ending1 s1 items2 ending2 s2,
    Store.get_aggregate_params
      (example_options 1%positive (Some 2%positive)) example_store
      = Some ((items1, ending1), s1) /\
    Store.get_aggregate_params
      (example_options 1%positive (Some 2%positive)) s1
      = Some ((items2, ending2), s2) /\
    ending1 = ending2 /\
    length items1 = length items2 /\
    values_in s2 items1 = values_in s2 items2 /\
    Forall (fun v => is_Some v.1) (values_in s2 items1).
Proof.
  assert (H : options_in example_store
                (example_options 1%positive (Some 2%positive))
                example_baseline (Some example_A_object))
    by (split; vm_compute; reflexivity).
  split; [exact H|].
  exact (repeated_expansion_is_equal_by_value
           (example_options 1%positive (Some 2%positive))
           example_store example_baseline (Some example_A_object) H).
Defined.

Lemma partitions_sampling_prob_must_be_in_0_1_witness :
  (0 <? 0.5)%float = true /\ (0.5 <? 1)%float = true /\
  UtilityAnalysisOptions.__init__ example_validator
    (example_options example_baseline (@None unit))
  = Ok (example_options example_baseline (@None unit)).
Proof.
  split; [reflexivity|]. split; [reflexivity|].
  apply (proj2 (partitions_sampling_prob_must_be_in_0_1 example_validator
                  (example_options example_baseline (@None unit))));
    [reflexivity|].
  right. split; reflexivity.
Defined.

(** ** Instances of the further properties *)

Lemma constructed_sequences_have_length_size_witness :
  MultiParameterConfiguration.__init__ (@example_A unit unit)
    = Ok example_A_object /\
  (0 < MultiParameterConfiguration.size example_A_object)%nat /\
  nonempty_lengths (@example_A unit unit) <> [] /\
  (forall n, n ∈ nonempty_lengths (@example_A unit unit) ->
             n = MultiParameterConfiguration.size example_A_object).
Proof.
  split; [reflexivity|].
  exact (constructed_sequences_have_length_size
           example_A example_A_object eq_refl).
Defined.

Lemma construction_raises_only_ValueError_witness :
  MultiParameterConfiguration.__init__ (@example_rows_without_max unit unit)
    = Raise ValueError /\
  ValueError = ValueError.
Proof.
  split; [reflexivity|].
  exact (construction_raises_only_ValueError
           (@example_rows_without_max unit unit) ValueError eq_refl).
Defined.

Lemma materialize_overrides_supplied_attributes_witness :
  MultiParameterConfiguration.get_aggregate_params
    example_A_object example_baseline (Z.of_nat 1)
    = Ok (pipeline_dp.set_max_contributions_per_partition 11
            (pipeline_dp.set_max_partitions_contributed 2 example_baseline),
          [(Scalar 0, Scalar 1)]) /\
  pipeline_dp.max_partitions_contributed
    (pipeline_dp.set_max_contributions_per_partition 11
       (pipeline_dp.set_max_partitions_contributed 2 example_baseline)) =
    default (pipeline_dp.max_partitions_contributed example_baseline)
      (MultiParameterConfiguration.max_partitions_contributed example_A_object
         ≫= (fun l => l !! 1%nat)).
Proof.
  split; [reflexivity|].
  exact (proj1 (materialize_overrides_supplied_attributes
                  example_A_object example_baseline 1%nat _ _ eq_refl)).
Defined.

Lemma bounds_fall_back_to_the_baseline_witness :
  MultiParameterConfiguration.__init__ (@example_A unit unit)
    = Ok example_A_object /\
  truthy (MultiParameterConfiguration.min_sum_per_partition
            (@example_A unit unit)) = false /\
  in_range (MultiParameterConfiguration.size example_A_object) (-2) /\
  exists configuration,
    MultiParameterConfiguration.get_aggregate_params
      example_A_object example_baseline (-2)
    = Ok (configuration, [(Scalar 0, Scalar 1)]).
Proof.
  assert (Hin : in_range (MultiParameterConfiguration.size example_A_object)
                  (-2)) by (unfold in_range; simpl; lia).
  split; [reflexivity|]. split; [reflexivity|]. split; [exact Hin|].
  exact (bounds_fall_back_to_the_baseline
           example_A example_A_object example_baseline (-2)
           eq_refl eq_refl Hin).
Defined.

Lemma scalar_bounds_are_a_single_pair_witness :
  exists configuration,
    MultiParameterConfiguration.get_aggregate_params
      {| MultiParameterConfiguration.attributes := @example_scalars unit unit;
         MultiParameterConfiguration._size := 2 |}
      example_baseline (Z.of_nat 1)
    = Ok (configuration, [(Scalar 2, Scalar 6)]).
Proof.
  exact (scalar_bounds_are_a_single_pair
           example_scalars _ example_baseline 1%nat
           [Scalar 1; Scalar 2] [Scalar 5; Scalar 6] 2%float (Scalar 6)
           eq_refl eq_refl eq_refl eq_refl eq_refl).
Defined.

Lemma sequence_against_scalar_raises_TypeError_witness :
  MultiParameterConfiguration.get_aggregate_params
    {| MultiParameterConfiguration.attributes :=
         @example_rows_against_scalars unit unit;
       MultiParameterConfiguration._size := 1 |}
    example_baseline (Z.of_nat 0)
  = Raise TypeError.
Proof.
  exact (sequence_against_scalar_raises_TypeError
           example_rows_against_scalars _ example_baseline 0%nat
           [Columns [1; 2]%float] [Scalar 5] [1; 2]%float 5%float
           eq_refl eq_refl eq_refl eq_refl eq_refl).
Defined.

Lemma multi_column_configurations_have_equally_many_bounds_witness :
  exists c,
    MultiParameterConfiguration.common_value_len
      [Columns [1; 2]%float; Columns [3; 4]%float] = Ok (Some c) /\
    MultiParameterConfiguration.common_value_len
      [Columns [5; 6]%float; Columns [7; 8]%float] = Ok (Some c) /\
    uniform c (column_counts [Columns [1; 2]%float; Columns [3; 4]%float]) /\
    uniform c (column_counts [Columns [5; 6]%float; Columns [7; 8]%float]) /\
    forall i : nat,
      (i < 2)%nat ->
      exists configuration bounds,
        MultiParameterConfiguration.get_aggregate_params
          {| MultiParameterConfiguration.attributes := @example_B unit unit;
             MultiParameterConfiguration._size := 2 |}
          example_baseline (Z.of_nat i) = Ok (configuration, bounds) /\
        length bounds = c.
Proof.
  exact (multi_column_configurations_have_equally_many_bounds
           example_B _ example_baseline
           (Columns [1; 2]%float) [Columns [3; 4]%float]
           [Columns [5; 6]%float; Columns [7; 8]%float]
           eq_refl eq_refl eq_refl eq_refl eq_refl).
Defined.

Lemma get_aggregate_params_yields_in_index_order_witness :
  UtilityAnalysisOptions.multi_param_configuration
    (example_options example_baseline (Some example_A_object))
    = Some example_A_object /\
  length
    (get_aggregate_params
       (example_options example_baseline (Some example_A_object))).1
    = MultiParameterConfiguration.size example_A_object.
Proof.
  split; [reflexivity|].
  exact (proj2 (get_aggregate_params_yields_in_index_order
                  (example_options example_baseline (Some example_A_object))
                  example_A_object _ None eq_refl eq_refl)).
Defined.

Lemma expansion_completes_iff_shapes_agree_witness :
  shapes_agree (@example_B unit unit) /\
  exists items,
    get_aggregate_params
      (example_options example_baseline
         (Some {| MultiParameterConfiguration.attributes := example_B;
                  MultiParameterConfiguration._size := 2 |}))
      = (items, None) /\
    length items = 2%nat.
Proof.
  assert (H : shapes_agree (@example_B unit unit)).
  { eexists. split; [reflexivity|]. repeat constructor. }
  split; [exact H|].
  exact (proj1 (expansion_completes_iff_shapes_agree
                  example_B _
                  (example_options example_baseline (Some _))
                  eq_refl eq_refl) H).
Defined.

Lemma strategies_are_those_of_the_configurations_witness :
  get_partition_selection_strategy
    (example_options example_baseline (Some example_A_object)) =
  (fun item => pipeline_dp.partition_selection_strategy item.1) <$>
    (get_aggregate_params
       (example_options example_baseline (Some example_A_object))).1.
Proof.
  apply (strategies_are_those_of_the_configurations
           example_A example_A_object
           (example_options example_baseline (Some example_A_object)));
    [reflexivity|discriminate|reflexivity|reflexivity].
Defined.

Lemma negative_index_counts_from_the_end_witness :
  MultiParameterConfiguration.get_aggregate_params
    example_A_object example_baseline
    (Z.of_nat 1 - Z.of_nat (MultiParameterConfiguration.size example_A_object))
  = MultiParameterConfiguration.get_aggregate_params
      example_A_object example_baseline (Z.of_nat 1).
Proof.
  apply (negative_index_counts_from_the_end
           example_A example_A_object example_baseline 1%nat);
    [reflexivity|split; discriminate|simpl; lia].
Defined.

Lemma rows_without_max_sum_are_rejected_witness :
  MultiParameterConfiguration.__init__ (@example_rows_without_max unit unit)
    = Raise ValueError.
Proof.
  exact (rows_without_max_sum_are_rejected
           example_rows_without_max (Columns [1; 2]%float) []
           eq_refl eq_refl eq_refl).
Defined.

Lemma empty_max_sum_raises_IndexError_at_every_index_witness :
  MultiParameterConfiguration.__init__ (@example_scalar_without_max unit unit)
    = Ok {| MultiParameterConfiguration.attributes :=
              example_scalar_without_max;
            MultiParameterConfiguration._size := 1 |} /\
  MultiParameterConfiguration.get_aggregate_params
    {| MultiParameterConfiguration.attributes :=
         @example_scalar_without_max unit unit;
       MultiParameterConfiguration._size := 1 |}
    example_baseline 0
  = Raise IndexError.
Proof.
  split; [reflexivity|].
  exact (empty_max_sum_raises_IndexError_at_every_index
           example_scalar_without_max _ example_baseline 0 (Scalar 1) []
           eq_refl eq_refl eq_refl).
Defined.

Lemma accepted_sampling_probabilities_witness :
  UtilityAnalysisOptions.__init__ example_validator
    (example_options example_baseline (@None unit))
  = Ok (example_options example_baseline (@None unit)).
Proof.
  apply (proj2 (accepted_sampling_probabilities example_validator
                  (example_options example_baseline (@None unit)))).
  split; [reflexivity|]. left. split; reflexivity.
Defined.

Lemma materialize_assigns_to_its_copy_only_witness :
  example_store !! 2%positive
    = Some (Store.MultiParameterConfigurationObject example_A_object) /\
  example_store !! 1%positive
    = Some (Store.AggregateParamsObject example_baseline) /\
  exists outcome s',
    Store.MultiParameterConfiguration.get_aggregate_params
      2%positive 1%positive 0 example_store = Some (outcome, s') /\
    example_store ⊆ s'.
Proof.
  assert (H2 : example_store !! 2%positive
               = Some (Store.MultiParameterConfigurationObject
                         example_A_object)) by (vm_compute; reflexivity).
  assert (H1 : example_store !! 1%positive
               = Some (Store.AggregateParamsObject example_baseline))
    by (vm_compute; reflexivity).
  split; [exact H2|]. split; [exact H1|].
  destruct (materialize_assigns_to_its_copy_only
              2%positive 1%positive 0 example_store
              example_A_object example_baseline H2 H1)
    as (outcome & s' & Hrun & Hsub & _).
  exists outcome, s'. auto.
Defined.
